(** * The agent coordinator of src/orchestrator/coordinator.py

    A shallow embedding of [TaskStatus], [AgentTask] and [AgentCoordinator],
    followed by the properties of the task life cycle, of identifier
    allocation, of failure reporting and of the read-only queries.

    Conventions of the embedding:
    - a Python [dict] is an insertion-ordered association list with unique
      keys ([PyDict]); iteration order ([values()], [keys()]) is the order of
      first insertion, as in CPython;
    - a method of the coordinator is a function in the monad [Py], which
      threads the coordinator and carries either a returned value or a raised
      exception; what was mutated before a [raise] stays mutated;
    - a registered agent is an opaque Python object.  Its [execute] method may
      answer differently from one invocation to the next, so a handle is
      given the number of handle invocations made so far (the ghost field
      [calls] of the coordinator) next to the task description; a handle
      does not call back into the coordinator that invokes it;
    - what a call raises is an instance of [BaseException]; [is_exception]
      tells the instances of [Exception], which are the ones the
      [except Exception] clause of [execute_task] catches, from the others
      ([KeyboardInterrupt], [SystemExit] and the like), which pass through;
    - [task_counter] starts at 0 and is only incremented or set to 0, so it
      is a natural number;
    - the attributes [workspace_manager], [github_client] and [logger] play
      no part in the methods below and are left out, as are the calls to the
      logger, which only write to the log. *)

From Stdlib Require Import List String Ascii Arith ZArith Bool Lia FinFun.
From Stdlib Require Import Decimal DecimalNat DecimalString.
Import ListNotations.
Local Open Scope string_scope.
Local Open Scope list_scope.
Local Open Scope nat_scope.
Set Warnings "-register-all".

(** ** Python values, exceptions and string formatting *)

(** The part of [Any] the coordinator can tell apart: [None] or not. *)
Inductive PyValue : Type :=
| PyNone
| PyBool (b : bool)
| PyInt (z : Z)
| PyStr (s : string)
| PyList (l : list PyValue).

(** [x is not None] *)
Definition is_set (v : PyValue) : bool :=
  match v with PyNone => false | _ => true end.

(** What can be raised.  [OtherError] is an instance of any other class
    that derives from [Exception]; [BaseError] is an instance of a class
    that derives from [BaseException] but not from [Exception], such as
    [KeyboardInterrupt], [SystemExit], [GeneratorExit] or
    [asyncio.CancelledError]. *)
Inductive PyExn : Type :=
| ValueError (msg : string)
| KeyError (key : string)
| RuntimeError (msg : string) (cause : option PyExn)
| OtherError (cls : string) (msg : string)
| BaseError (cls : string) (msg : string).

(** [isinstance(e, Exception)] *)
Definition is_exception (e : PyExn) : bool :=
  match e with
  | BaseError _ _ => false
  | _ => true
  end.

Definition dquote : ascii := ascii_of_nat 34.
Definition squote : ascii := ascii_of_nat 39.
Definition backslash : ascii := ascii_of_nat 92.

Fixpoint mem_char (c : ascii) (s : string) : bool :=
  match s with
  | EmptyString => false
  | String a s' => Ascii.eqb a c || mem_char c s'
  end.

Definition hex_digit (n : nat) : ascii :=
  if n <? 10 then ascii_of_nat (48 + n) else ascii_of_nat (87 + n).

Definition hex2 (n : nat) : string :=
  String (hex_digit (n / 16)) (String (hex_digit (n mod 16)) EmptyString).

(** One character of [repr(s)] for a [str] whose characters are code points
    below 256: the quote in use and the backslash are escaped, so are tab,
    line feed and carriage return, and a code point that is not printable
    is written [\xhh]. *)
Definition repr_char (quote c : ascii) : string :=
  let n := nat_of_ascii c in
  if Ascii.eqb c quote || Ascii.eqb c backslash
  then String backslash (String c EmptyString)
  else if n =? 9 then "\t"
  else if n =? 10 then "\n"
  else if n =? 13 then "\r"
  else if (n <? 32) || (n =? 127) then "\x" ++ hex2 n
  else if n <? 127 then String c EmptyString
  else if (n <? 161) || (n =? 173) then "\x" ++ hex2 n
  else String c EmptyString.

Fixpoint repr_body (quote : ascii) (s : string) : string :=
  match s with
  | EmptyString => EmptyString
  | String c s' => repr_char quote c ++ repr_body quote s'
  end.

(** [repr(s)]: single quotes, unless [s] holds a single quote and no double
    quote. *)
Definition py_repr (s : string) : string :=
  let quote := if mem_char squote s && negb (mem_char dquote s)
               then dquote else squote in
  String quote (repr_body quote s ++ String quote EmptyString).

(** [str(e)]: the single argument of the exception; a [KeyError] shows the
    [repr] of its key. *)
Definition exn_str (e : PyExn) : string :=
  match e with
  | ValueError msg => msg
  | KeyError key => py_repr key
  | RuntimeError msg _ => msg
  | OtherError _ msg => msg
  | BaseError _ msg => msg
  end.

Fixpoint zeros (n : nat) : string :=
  match n with
  | O => EmptyString
  | S k => String "0" (zeros k)
  end.

(** [str(n)] for a natural number. *)
Definition str_of_nat (n : nat) : string :=
  NilEmpty.string_of_uint (Nat.to_uint n).

(** The format specification [04d]: decimal digits, padded with zeros on
    the left up to a width of four. *)
Definition format_04d (n : nat) : string :=
  let s := str_of_nat n in
  zeros (4 - String.length s) ++ s.

(** The f-string [task_{n:04d}]. *)
Definition task_id_of (n : nat) : string := "task_" ++ format_04d n.

(** ** Insertion-ordered dictionaries with [str] keys *)

Module PyDict.

Definition t (V : Type) : Type := list (string * V).

Section Ops.
Context {V : Type}.

(** [d.get(k)] *)
Fixpoint get (d : t V) (k : string) : option V :=
  match d with
  | [] => None
  | (k', v) :: d' => if String.eqb k' k then Some v else get d' k
  end.

(** [k in d] *)
Definition contains (d : t V) (k : string) : bool :=
  match get d k with Some _ => true | None => false end.

(** [d[k] = v]: an existing key keeps its position, a new key goes last. *)
Fixpoint set (d : t V) (k : string) (v : V) : t V :=
  match d with
  | [] => [(k, v)]
  | (k', v') :: d' =>
      if String.eqb k' k then (k', v) :: d' else (k', v') :: set d' k v
  end.

(** [del d[k]] for a key that is present; nothing to remove otherwise. *)
Fixpoint del (d : t V) (k : string) : t V :=
  match d with
  | [] => []
  | (k', v') :: d' => if String.eqb k' k then d' else (k', v') :: del d' k
  end.

Definition keys (d : t V) : list string := map fst d.
Definition values (d : t V) : list V := map snd d.
Definition len (d : t V) : nat := List.length d.
Definition empty : t V := [].
End Ops.

End PyDict.

(** ** TaskStatus and AgentTask *)

Inductive TaskStatus : Type := PENDING | IN_PROGRESS | COMPLETED | FAILED.

Definition status_value (s : TaskStatus) : string :=
  match s with
  | PENDING => "pending"
  | IN_PROGRESS => "in_progress"
  | COMPLETED => "completed"
  | FAILED => "failed"
  end.

Definition status_eqb (a b : TaskStatus) : bool :=
  match a, b with
  | PENDING, PENDING | IN_PROGRESS, IN_PROGRESS
  | COMPLETED, COMPLETED | FAILED, FAILED => true
  | _, _ => false
  end.

Record AgentTask : Type := mkTask {
  task_id : string;
  agent_name : string;
  description : string;
  status : TaskStatus;
  result : PyValue;
  error : option string
}.

(** [AgentTask.__init__] *)
Definition new_task (tid name descr : string) : AgentTask :=
  mkTask tid name descr PENDING PyNone None.

Definition mark_in_progress (t : AgentTask) : AgentTask :=
  mkTask (task_id t) (agent_name t) (description t)
         IN_PROGRESS (result t) (error t).

Definition mark_completed (r : PyValue) (t : AgentTask) : AgentTask :=
  mkTask (task_id t) (agent_name t) (description t)
         COMPLETED r (error t).

Definition mark_failed (msg : string) (t : AgentTask) : AgentTask :=
  mkTask (task_id t) (agent_name t) (description t)
         FAILED (result t) (Some msg).

(** ** The coordinator and its monad *)

Inductive Outcome (A : Type) : Type :=
| Return (a : A)
| Raise (e : PyExn).
Arguments Return {A} a.
Arguments Raise {A} e.

(** A registered handle: [execute n descr] is what [agent.execute(descr)]
    does when [n] handle invocations have been made before it. *)
Record Agent : Type := mkAgent {
  execute : nat -> string -> Outcome PyValue
}.

Record AgentCoordinator : Type := mkCoordinator {
  agents : PyDict.t Agent;
  tasks : PyDict.t AgentTask;
  task_counter : nat;
  calls : nat
}.

(** [AgentCoordinator.__init__] *)
Definition new_coordinator : AgentCoordinator :=
  mkCoordinator PyDict.empty PyDict.empty 0 0.

Definition Py (A : Type) : Type :=
  AgentCoordinator -> AgentCoordinator * Outcome A.

Definition ret {A} (a : A) : Py A := fun self => (self, Return a).

Definition raise {A} (e : PyExn) : Py A := fun self => (self, Raise e).

Definition bind {A B} (m : Py A) (k : A -> Py B) : Py B :=
  fun self =>
    match m self with
    | (self', Return a) => k a self'
    | (self', Raise e) => (self', Raise e)
    end.

(** [try: body  except Exception as e: handler e].  The handler runs for
    an instance of [Exception]; anything else that [body] raises goes on
    to the caller as it is. *)
Definition try_except {A} (body : Py A) (handler : PyExn -> Py A) : Py A :=
  fun self =>
    match body self with
    | (self', Return a) => (self', Return a)
    | (self', Raise e) =>
        if is_exception e then handler e self' else (self', Raise e)
    end.

Declare Scope py_scope.
Delimit Scope py_scope with py.
Notation "x <- m ;; k" := (bind m (fun x => k))
  (at level 61, m at next level, right associativity) : py_scope.
Notation "m ;; k" := (bind m (fun _ => k))
  (at level 61, right associativity) : py_scope.
Local Open Scope py_scope.

Definition get_agents : Py (PyDict.t Agent) :=
  fun self => (self, Return (agents self)).
Definition get_tasks : Py (PyDict.t AgentTask) :=
  fun self => (self, Return (tasks self)).
Definition get_task_counter : Py nat :=
  fun self => (self, Return (task_counter self)).

Definition put_agents (a : PyDict.t Agent) : Py unit :=
  fun self =>
    (mkCoordinator a (tasks self) (task_counter self) (calls self), Return tt).
Definition put_tasks (ts : PyDict.t AgentTask) : Py unit :=
  fun self =>
    (mkCoordinator (agents self) ts (task_counter self) (calls self), Return tt).
Definition put_task_counter (n : nat) : Py unit :=
  fun self =>
    (mkCoordinator (agents self) (tasks self) n (calls self), Return tt).

(** A method call on the task object stored under [key]: the object is
    shared with the table, so the table entry changes. *)
Definition update_task (key : string) (f : AgentTask -> AgentTask) : Py unit :=
  ts <- get_tasks ;;
  match PyDict.get ts key with
  | Some t => put_tasks (PyDict.set ts key (f t))
  | None => ret tt
  end.

(** [self.agents[name]] *)
Definition getitem_agent (name : string) : Py Agent :=
  a <- get_agents ;;
  match PyDict.get a name with
  | Some agent => ret agent
  | None => raise (KeyError name)
  end.

(** [agent.execute(descr)] *)
Definition call_execute (agent : Agent) (descr : string) : Py PyValue :=
  fun self =>
    (mkCoordinator (agents self) (tasks self) (task_counter self)
                   (S (calls self)),
     execute agent (calls self) descr).

(** ** Methods of AgentCoordinator *)

Definition register_agent (name : string) (agent_instance : Agent) : Py unit :=
  a <- get_agents ;;
  put_agents (PyDict.set a name agent_instance).

Definition unregister_agent (name : string) : Py unit :=
  a <- get_agents ;;
  if PyDict.contains a name
  then put_agents (PyDict.del a name)
  else ret tt.

Definition create_task (name descr : string) : Py string :=
  a <- get_agents ;;
  if negb (PyDict.contains a name)
  then raise (ValueError ("Agent '" ++ name ++ "' is not registered")%string)
  else
    n <- get_task_counter ;;
    put_task_counter (n + 1) ;;
    n' <- get_task_counter ;;
    let tid := task_id_of n' in
    let task := new_task tid name descr in
    ts <- get_tasks ;;
    put_tasks (PyDict.set ts tid task) ;;
    ret tid.

(** [execute_task] up to the [try]: the lookup of the task and
    [task.mark_in_progress()]. *)
Definition execute_task_enter (tid : string) : Py AgentTask :=
  ts <- get_tasks ;;
  match PyDict.get ts tid with
  | None => raise (ValueError ("Task '" ++ tid ++ "' not found")%string)
  | Some task =>
      update_task tid mark_in_progress ;;
      ret task
  end.

(** The [try] statement of [execute_task]; [agent_name] and [description]
    of the task are never assigned after construction. *)
Definition execute_task_try (tid : string) (task : AgentTask) : Py PyValue :=
  try_except
    (agent <- getitem_agent (agent_name task) ;;
     r <- call_execute agent (description task) ;;
     update_task tid (mark_completed r) ;;
     ret r)
    (fun e =>
       let error_msg := ("Task execution failed: " ++ exn_str e)%string in
       update_task tid (mark_failed error_msg) ;;
       raise (RuntimeError error_msg (Some e))).

Definition execute_task (tid : string) : Py PyValue :=
  task <- execute_task_enter tid ;;
  execute_task_try tid task.

Definition opt_str (o : option string) : PyValue :=
  match o with
  | None => PyNone
  | Some s => PyStr s
  end.

Definition get_task_status (tid : string) : Py (PyDict.t PyValue) :=
  ts <- get_tasks ;;
  match PyDict.get ts tid with
  | None => raise (ValueError ("Task '" ++ tid ++ "' not found")%string)
  | Some task =>
      ret [ ("task_id", PyStr (task_id task));
            ("agent_name", PyStr (agent_name task));
            ("description", PyStr (description task));
            ("status", PyStr (status_value (status task)));
            ("result", result task);
            ("error", opt_str (error task)) ]
  end.

(** [step[key]] *)
Definition getitem_step (step : PyDict.t string) (key : string) : Py string :=
  match PyDict.get step key with
  | Some v => ret v
  | None => raise (KeyError key)
  end.

(** The [for] loop of [execute_workflow], with [results] as accumulated so
    far. *)
Fixpoint workflow_loop (steps : list (PyDict.t string))
         (results : list PyValue) : Py (list PyValue) :=
  match steps with
  | [] => ret results
  | step :: rest =>
      name <- getitem_step step "agent_name" ;;
      descr <- getitem_step step "description" ;;
      tid <- create_task name descr ;;
      r <- execute_task tid ;;
      workflow_loop rest (results ++ [r])
  end.

Definition execute_workflow (steps : list (PyDict.t string))
  : Py (list PyValue) :=
  workflow_loop steps [].

Definition has_status (s : TaskStatus) (t : AgentTask) : bool :=
  status_eqb (status t) s.

(** Truth value of an [Optional[str]]: [None] and the empty string are
    false. *)
Definition truthy (o : option string) : bool :=
  match o with
  | None => false
  | Some EmptyString => false
  | Some (String _ _) => true
  end.

Definition get_pending_tasks (name : option string) (self : AgentCoordinator)
  : list AgentTask :=
  let pending := filter (has_status PENDING) (PyDict.values (tasks self)) in
  if truthy name
  then filter (fun t => match name with
                        | Some n => String.eqb (agent_name t) n
                        | None => false
                        end) pending
  else pending.

Definition get_agent_tasks (name : string) (self : AgentCoordinator)
  : list AgentTask :=
  filter (fun t => String.eqb (agent_name t) name)
         (PyDict.values (tasks self)).

Record WorkflowSummary : Type := mkSummary {
  total_tasks : nat;
  registered_agents : list string;
  status_counts : PyDict.t nat
}.

(** [sum(1 for t in self.tasks.values() if t.status == s)] *)
Definition count_status (s : TaskStatus) (self : AgentCoordinator) : nat :=
  list_sum (map (fun _ => 1)
                (filter (has_status s) (PyDict.values (tasks self)))).

Definition get_workflow_summary (self : AgentCoordinator) : WorkflowSummary :=
  mkSummary
    (PyDict.len (tasks self))
    (PyDict.keys (agents self))
    [ ("pending", count_status PENDING self);
      ("in_progress", count_status IN_PROGRESS self);
      ("completed", count_status COMPLETED self);
      ("failed", count_status FAILED self) ].

Definition reset : Py unit :=
  put_tasks PyDict.empty ;;
  put_task_counter 0.

(** ** Sequences of calls on one coordinator *)

Inductive Call : Type :=
| CallRegister (name : string) (agent_instance : Agent)
| CallUnregister (name : string)
| CallCreateTask (name descr : string)
| CallExecuteTask (tid : string)
| CallExecuteWorkflow (steps : list (PyDict.t string))
| CallReset.

(** The coordinator after one call, whether the call returned or raised. *)
Definition perform (c : Call) (self : AgentCoordinator) : AgentCoordinator :=
  match c with
  | CallRegister name a => fst (register_agent name a self)
  | CallUnregister name => fst (unregister_agent name self)
  | CallCreateTask name descr => fst (create_task name descr self)
  | CallExecuteTask tid => fst (execute_task tid self)
  | CallExecuteWorkflow steps => fst (execute_workflow steps self)
  | CallReset => fst (reset self)
  end.

Definition perform_all (cs : list Call) (self : AgentCoordinator)
  : AgentCoordinator :=
  fold_left (fun s c => perform c s) cs self.

Definition is_reset (c : Call) : bool :=
  match c with
  | CallReset => true
  | _ => false
  end.

(** ** Auxiliary definitions used in the statements *)

(** Reading back a decimal numeral, leading zeros allowed. *)
Definition parse_nat (s : string) : option nat :=
  option_map Nat.of_uint (NilEmpty.uint_of_string s).

(** What the [try] block meets: the registry lookup, then the handle. *)
Definition dispatch (self : AgentCoordinator) (task : AgentTask)
  : Outcome PyValue :=
  match PyDict.get (agents self) (agent_name task) with
  | None => Raise (KeyError (agent_name task))
  | Some agent => execute agent (calls self) (description task)
  end.

Definition calls_after (self : AgentCoordinator) (task : AgentTask) : nat :=
  match PyDict.get (agents self) (agent_name task) with
  | None => calls self
  | Some _ => S (calls self)
  end.

(** The task object as [execute_task] leaves it. *)
Definition finished (task : AgentTask) (o : Outcome PyValue) : AgentTask :=
  match o with
  | Return r => mark_completed r (mark_in_progress task)
  | Raise e =>
      if is_exception e
      then mark_failed ("Task execution failed: " ++ exn_str e)
                       (mark_in_progress task)
      else mark_in_progress task
  end.

(** What [execute_task] returns or raises. *)
Definition reported (o : Outcome PyValue) : Outcome PyValue :=
  match o with
  | Return r => Return r
  | Raise e =>
      if is_exception e
      then Raise (RuntimeError ("Task execution failed: " ++ exn_str e)
                               (Some e))
      else Raise e
  end.

(** [isinstance(e, KeyError)] for what a call raised. *)
Definition raises_key_error {A} (o : Outcome A) : bool :=
  match o with
  | Raise (KeyError _) => true
  | _ => false
  end.

(** ** Histories *)

Definition no_reset (cs : list Call) : bool :=
  forallb (fun c => negb (is_reset c)) cs.

(** The method calls that [execute_workflow] makes on the coordinator, in
    order, up to the first one that raises. *)
Fixpoint workflow_calls (steps : list (PyDict.t string))
         (self : AgentCoordinator) : list Call :=
  match steps with
  | [] => []
  | step :: rest =>
      match PyDict.get step "agent_name", PyDict.get step "description" with
      | Some name, Some descr =>
          match create_task name descr self with
          | (self1, Return tid) =>
              CallCreateTask name descr :: CallExecuteTask tid ::
              match execute_task tid self1 with
              | (self2, Return _) => workflow_calls rest self2
              | (_, Raise _) => []
              end
          | (_, Raise _) => [CallCreateTask name descr]
          end
      | _, _ => []
      end
  end.

(** Pending, then in progress, then one of the two final statuses. *)
Definition rank (s : TaskStatus) : nat :=
  match s with
  | PENDING => 0
  | IN_PROGRESS => 1
  | COMPLETED => 2
  | FAILED => 2
  end.

(** No identifier beyond the counter is in the task table. *)
Definition fresh_ids (self : AgentCoordinator) : Prop :=
  forall n, task_counter self < n ->
            PyDict.get (tasks self) (task_id_of n) = None.

Definition same_task (t t' : AgentTask) : Prop :=
  task_id t' = task_id t
  /\ agent_name t' = agent_name t
  /\ description t' = description t.

(** Every task of [self] is still in [self'], no earlier in its life. *)
Definition advances (self self' : AgentCoordinator) : Prop :=
  forall tid t,
    PyDict.get (tasks self) tid = Some t ->
    exists t', PyDict.get (tasks self') tid = Some t'
               /\ same_task t t'
               /\ rank (status t) <= rank (status t').

(** [execute_task] is only called on a task that is still pending. *)
Definition executes_pending (c : Call) (self : AgentCoordinator) : bool :=
  match c with
  | CallExecuteTask tid =>
      match PyDict.get (tasks self) tid with
      | Some t => has_status PENDING t
      | None => true
      end
  | _ => true
  end.

Fixpoint executed_once (cs : list Call) (self : AgentCoordinator) : bool :=
  match cs with
  | [] => true
  | c :: cs' => executes_pending c self && executed_once cs' (perform c self)
  end.

(** A handle that returns or raises an instance of [Exception]. *)
Definition raises_exceptions_only (a : Agent) : Prop :=
  forall n descr e, execute a n descr = Raise e -> is_exception e = true.

(** A call that registers such a handle, or registers none. *)
Definition polite (c : Call) : Prop :=
  match c with
  | CallRegister _ a => raises_exceptions_only a
  | _ => True
  end.

(** Every handle of the registry returns or raises an [Exception]. *)
Definition polite_registry (self : AgentCoordinator) : Prop :=
  forall a, In a (PyDict.values (agents self)) -> raises_exceptions_only a.

(** What holds of a task between two calls, whatever the history. *)
Definition settled (t : AgentTask) : Prop :=
  (status t = PENDING -> result t = PyNone /\ error t = None)
  /\ (status t = FAILED -> error t <> None).

(** What holds of a task between two calls when handles return or raise
    an [Exception]. *)
Definition at_rest (t : AgentTask) : Prop := status t <> IN_PROGRESS.

(** What holds of a task that was executed at most once. *)
Definition consistent (t : AgentTask) : Prop :=
  match status t with
  | PENDING => result t = PyNone /\ error t = None
  | IN_PROGRESS => result t = PyNone /\ error t = None
  | COMPLETED => error t = None
  | FAILED => result t = PyNone /\ error t <> None
  end.

(** Every task of [self] is still in [self'] and has not gone back to
    PENDING. *)
Definition persists (self self' : AgentCoordinator) : Prop :=
  forall tid t,
    PyDict.get (tasks self) tid = Some t ->
    exists t', PyDict.get (tasks self') tid = Some t'
               /\ same_task t t'
               /\ (status t' = PENDING -> status t = PENDING).

Definition all_tasks (Q : AgentTask -> Prop) (self : AgentCoordinator)
  : Prop :=
  forall tid t, PyDict.get (tasks self) tid = Some t -> Q t.

(** ** Well-formed coordinators *)

(** The task table holds the identifiers of the counter values 1 to
    [task_counter], in the order of allocation. *)
Definition table_in_order (self : AgentCoordinator) : Prop :=
  PyDict.keys (tasks self) = map task_id_of (seq 1 (task_counter self)).

(** A task is stored under its own [task_id]. *)
Definition keyed_by_id (self : AgentCoordinator) : Prop :=
  forall tid t, PyDict.get (tasks self) tid = Some t -> task_id t = tid.

(** No name occurs twice in the registry. *)
Definition registry_distinct (self : AgentCoordinator) : Prop :=
  NoDup (PyDict.keys (agents self)).

Definition well_formed (self : AgentCoordinator) : Prop :=
  table_in_order self /\ keyed_by_id self /\ registry_distinct self.

(** ** Workflow plans *)

(** A workflow step next to the agent name and the description it holds and
    the value its handle is to return. *)
Record PlannedStep : Type := mkPlanned {
  planned_step : PyDict.t string;
  planned_name : string;
  planned_descr : string;
  planned_result : PyValue
}.

(** Every step of the plan holds its two keys and names an agent of the
    registry [reg], whose handle returns the planned result when the steps
    are run one after the other from handle invocation number [n] on. *)
Fixpoint all_return (reg : PyDict.t Agent) (n : nat)
         (plan : list PlannedStep) : Prop :=
  match plan with
  | [] => True
  | p :: rest =>
      PyDict.get (planned_step p) "agent_name" = Some (planned_name p)
      /\ PyDict.get (planned_step p) "description" = Some (planned_descr p)
      /\ (exists agent,
            PyDict.get reg (planned_name p) = Some agent
            /\ execute agent n (planned_descr p) = Return (planned_result p))
      /\ all_return reg (S n) rest
  end.

(** A handle that returns on every invocation. *)
Definition reliable (a : Agent) : Prop :=
  forall n descr, exists r, execute a n descr = Return r.

(** A call that registers a reliable handle, or that leaves the registry
    alone. *)
Definition keeps_reliable (c : Call) : Prop :=
  match c with
  | CallRegister _ a => reliable a
  | CallUnregister _ => False
  | _ => True
  end.

(** [create_task] and [execute_task] calls. *)
Definition is_task_call (c : Call) : bool :=
  match c with
  | CallCreateTask _ _ => true
  | CallExecuteTask _ => true
  | _ => false
  end.

(** Every handle of the registry is reliable, and every task names a
    registered agent and has not failed. *)
Definition trouble_free (self : AgentCoordinator) : Prop :=
  (forall name a, PyDict.get (agents self) name = Some a -> reliable a)
  /\ all_tasks (fun t => PyDict.contains (agents self) (agent_name t) = true
                        /\ status t <> FAILED) self.

(** ** Sample handles and coordinators *)

(** [MockAgent] of demo_phase1.py. *)
Definition MockAgent (name : string) : Agent :=
  mkAgent (fun _ task => Return (PyStr (name ++ " completed: " ++ task))).

(** A handle whose [execute] raises [Exception(msg)]. *)
Definition FailingAgent (msg : string) : Agent :=
  mkAgent (fun _ _ => Raise (OtherError "Exception" msg)).

(** A handle whose [execute] is interrupted: it raises
    [KeyboardInterrupt()], whose [str] is empty. *)
Definition InterruptedAgent : Agent :=
  mkAgent (fun _ _ => Raise (BaseError "KeyboardInterrupt" EmptyString)).

(** A handle whose [execute] returns [None]. *)
Definition SilentAgent : Agent :=
  mkAgent (fun _ _ => Return PyNone).

(** A coordinator with one registered [MockAgent]. *)
Definition only_agent1 : AgentCoordinator :=
  perform (CallRegister "agent1" (MockAgent "Agent1")) new_coordinator.

(** One pending task for that agent. *)
Definition one_pending : AgentCoordinator :=
  perform (CallCreateTask "agent1" "Task 1 for Agent 1") only_agent1.

(** That task, executed. *)
Definition one_done : AgentCoordinator :=
  perform (CallExecuteTask "task_0001") one_pending.

Definition done_history : list Call :=
  [CallRegister "agent1" (MockAgent "Agent1");
   CallCreateTask "agent1" "Task 1 for Agent 1";
   CallExecuteTask "task_0001"].

(** The task is executed, its agent is unregistered, and the task is
    executed again. *)
Definition rerun_history : list Call :=
  done_history ++ [CallUnregister "agent1"; CallExecuteTask "task_0001"].

(** A task whose handle returns [None]. *)
Definition silent_history : list Call :=
  [CallRegister "agent1" SilentAgent;
   CallCreateTask "agent1" "Task 1 for Agent 1";
   CallExecuteTask "task_0001"].

(** One pending task whose agent raises. *)
Definition one_doomed : AgentCoordinator :=
  perform_all [CallRegister "agent1" (FailingAgent "no credit");
               CallCreateTask "agent1" "Task 1 for Agent 1"]
              new_coordinator.

(** One pending task whose agent is interrupted. *)
Definition one_interrupted : AgentCoordinator :=
  perform_all [CallRegister "agent1" InterruptedAgent;
               CallCreateTask "agent1" "Task 1 for Agent 1"]
              new_coordinator.

(** One pending task whose agent was unregistered after the task was
    created. *)
Definition one_orphan : AgentCoordinator :=
  perform (CallUnregister "agent1") one_pending.

(** The workflow of the docstring of [execute_workflow], with a coding
    agent that raises. *)
Definition three_agents : AgentCoordinator :=
  perform_all [CallRegister "planning" (MockAgent "Planner");
               CallRegister "coding" (FailingAgent "does not compile");
               CallRegister "testing" (MockAgent "Tester")]
              new_coordinator.

(** The same, with a coding agent that is interrupted. *)
Definition interrupted_agents : AgentCoordinator :=
  perform_all [CallRegister "planning" (MockAgent "Planner");
               CallRegister "coding" InterruptedAgent;
               CallRegister "testing" (MockAgent "Tester")]
              new_coordinator.

Definition step (name descr : string) : PyDict.t string :=
  [("agent_name", name); ("description", descr)].

Definition three_steps : list (PyDict.t string) :=
  [step "planning" "Analyze problem";
   step "coding" "Implement solution";
   step "testing" "Add tests"].

(** The two agents of [demo_coordinator] in demo_phase1.py. *)
Definition two_agents : AgentCoordinator :=
  perform_all [CallRegister "agent1" (MockAgent "Agent1");
               CallRegister "agent2" (MockAgent "Agent2")]
              new_coordinator.

(** Its two tasks, as a workflow. *)
Definition two_step_plan : list PlannedStep :=
  [mkPlanned (step "agent1" "Task 1 for Agent 1")
             "agent1" "Task 1 for Agent 1"
             (PyStr "Agent1 completed: Task 1 for Agent 1");
   mkPlanned (step "agent2" "Task 2 for Agent 2")
             "agent2" "Task 2 for Agent 2"
             (PyStr "Agent2 completed: Task 2 for Agent 2")].

(** * Properties *)

(** ** Dictionaries *)

Module PyDictFacts.
Import PyDict.

Section Facts.
Context {V : Type}.
Implicit Types (d : t V) (k : string) (v : V).

Lemma get_set_same d k v : get (set d k v) k = Some v.
Proof.
  induction d as [|[k' v'] d IH]; simpl.
  - now rewrite String.eqb_refl.
  - destruct (String.eqb k' k) eqn:E; simpl; rewrite E; auto.
Qed.

Lemma get_set_other d k k' v : k <> k' -> get (set d k v) k' = get d k'.
Proof.
  intros Hne.
  induction d as [|[k0 v0] d IH]; simpl.
  - destruct (String.eqb k k') eqn:E; auto.
    apply String.eqb_eq in E. contradiction.
  - destruct (String.eqb k0 k) eqn:E; simpl.
    + apply String.eqb_eq in E. subst k0.
      destruct (String.eqb k k') eqn:E'; auto.
      apply String.eqb_eq in E'. contradiction.
    + now rewrite IH.
Qed.

Lemma get_set d k k' v :
  get (set d k v) k' = if String.eqb k k' then Some v else get d k'.
Proof.
  destruct (String.eqb k k') eqn:E.
  - apply String.eqb_eq in E. subst. apply get_set_same.
  - apply String.eqb_neq in E. now apply get_set_other.
Qed.

Lemma set_set d k v v' : set (set d k v) k v' = set d k v'.
Proof.
  induction d as [|[k0 v0] d IH]; simpl.
  - now rewrite String.eqb_refl.
  - destruct (String.eqb k0 k) eqn:E; simpl; rewrite E; auto.
    now rewrite IH.
Qed.

Lemma contains_get d k : contains d k = false <-> get d k = None.
Proof.
  unfold contains. destruct (get d k); split; congruence.
Qed.

Lemma get_contains d k v : get d k = Some v -> contains d k = true.
Proof.
  unfold contains. now intros ->.
Qed.
Lemma contains_In d k : contains d k = true <-> In k (keys d).
Proof.
  unfold contains, keys.
  induction d as [|[k' v'] d IH]; simpl.
  - split; [discriminate|tauto].
  - destruct (String.eqb k' k) eqn:E.
    + apply String.eqb_eq in E. tauto.
    + apply String.eqb_neq in E. rewrite IH. tauto.
Qed.

Lemma get_None_notin d k : get d k = None <-> ~ In k (keys d).
Proof.
  rewrite <- contains_get, <- contains_In.
  destruct (contains d k); split; congruence.
Qed.

Lemma get_Some_In d k v : get d k = Some v -> In k (keys d).
Proof.
  intros H. apply contains_In. unfold contains. now rewrite H.
Qed.

Lemma keys_set_in d k v :
  contains d k = true -> keys (set d k v) = keys d.
Proof.
  unfold contains, keys.
  induction d as [|[k' v'] d IH]; simpl; [discriminate|].
  destruct (String.eqb k' k) eqn:E; simpl; auto.
  intros H. now rewrite IH.
Qed.

Lemma keys_set_notin d k v :
  contains d k = false -> keys (set d k v) = keys d ++ [k].
Proof.
  unfold contains, keys.
  induction d as [|[k' v'] d IH]; simpl; auto.
  destruct (String.eqb k' k) eqn:E; simpl; [discriminate|].
  intros H. now rewrite IH.
Qed.

Lemma values_set_notin d k v :
  contains d k = false -> values (set d k v) = values d ++ [v].
Proof.
  unfold contains, values.
  induction d as [|[k' v'] d IH]; simpl; auto.
  destruct (String.eqb k' k) eqn:E; simpl; [discriminate|].
  intros H. now rewrite IH.
Qed.

Lemma get_del_other d k k' : k <> k' -> get (del d k) k' = get d k'.
Proof.
  intros Hne.
  induction d as [|[k0 v0] d IH]; simpl; auto.
  destruct (String.eqb k0 k) eqn:E; simpl.
  - apply String.eqb_eq in E. subst k0.
    destruct (String.eqb k k') eqn:E'; auto.
    apply String.eqb_eq in E'. contradiction.
  - now rewrite IH.
Qed.

Lemma keys_del_incl d k k' : In k' (keys (del d k)) -> In k' (keys d).
Proof.
  unfold keys.
  induction d as [|[k0 v0] d IH]; simpl; auto.
  destruct (String.eqb k0 k); simpl; tauto.
Qed.

Lemma get_del_same d k : NoDup (keys d) -> get (del d k) k = None.
Proof.
  unfold keys.
  induction d as [|[k0 v0] d IH]; simpl; auto.
  intros Hnd. inversion Hnd as [|x l Hx Hl]; subst.
  destruct (String.eqb k0 k) eqn:E; simpl.
  - apply String.eqb_eq in E. subst k0.
    now apply get_None_notin.
  - rewrite E. auto.
Qed.

Lemma NoDup_keys_set d k v : NoDup (keys d) -> NoDup (keys (set d k v)).
Proof.
  intros Hnd. destruct (contains d k) eqn:E.
  - now rewrite keys_set_in.
  - rewrite keys_set_notin by exact E.
    apply NoDup_app; [exact Hnd|repeat constructor; tauto|].
    intros x Hx [<-|[]].
    apply contains_In in Hx. congruence.
Qed.

Lemma NoDup_keys_del d k : NoDup (keys d) -> NoDup (keys (del d k)).
Proof.
  unfold keys.
  induction d as [|[k0 v0] d IH]; simpl; auto.
  intros Hnd. inversion Hnd as [|x l Hx Hl]; subst.
  destruct (String.eqb k0 k); simpl; auto.
  constructor; auto.
  intros Hin. apply Hx. now apply (keys_del_incl d k).
Qed.

Lemma In_values_set d k v x :
  In x (values (set d k v)) -> x = v \/ In x (values d).
Proof.
  unfold values.
  induction d as [|[k0 v0] d IH]; simpl.
  - intros [<-|[]]. now left.
  - destruct (String.eqb k0 k); simpl.
    + intros [<-|H]; auto.
    + intros [<-|H]; auto. destruct (IH H); auto.
Qed.

Lemma In_values_del d k x : In x (values (del d k)) -> In x (values d).
Proof.
  unfold values.
  induction d as [|[k0 v0] d IH]; simpl; auto.
  destruct (String.eqb k0 k); simpl; tauto.
Qed.

Lemma get_In_values d k v : get d k = Some v -> In v (values d).
Proof.
  unfold values.
  induction d as [|[k0 v0] d IH]; simpl; [discriminate|].
  destruct (String.eqb k0 k); [intros [= <-]|]; auto.
Qed.

Lemma In_values_get d v :
  NoDup (keys d) -> In v (values d) -> exists k, get d k = Some v.
Proof.
  unfold keys, values.
  induction d as [|[k0 v0] d IH]; simpl; [tauto|].
  intros Hnd. inversion Hnd as [|x l Hx Hl]; subst.
  intros [<-|Hin].
  - exists k0. now rewrite String.eqb_refl.
  - destruct (IH Hl Hin) as [k Hk]. exists k.
    destruct (String.eqb k0 k) eqn:E; auto.
    apply String.eqb_eq in E. subst k0.
    exfalso. apply Hx. apply get_Some_In with (v := v). exact Hk.
Qed.
End Facts.

End PyDictFacts.

(** ** Task identifiers *)

Lemma parse_nat_zero (s : string) :
  parse_nat (String "0" s) = parse_nat s.
Proof.
  unfold parse_nat. simpl.
  destruct (NilEmpty.uint_of_string s) as [d|]; reflexivity.
Qed.

Lemma parse_nat_zeros (k : nat) (s : string) :
  parse_nat (zeros k ++ s) = parse_nat s.
Proof.
  induction k as [|k IH]; simpl; auto.
  now rewrite parse_nat_zero.
Qed.

Lemma parse_format_04d (n : nat) : parse_nat (format_04d n) = Some n.
Proof.
  unfold format_04d. rewrite parse_nat_zeros.
  unfold parse_nat, str_of_nat.
  rewrite NilEmpty.usu. simpl. now rewrite Unsigned.of_to.
Qed.

Lemma format_04d_inj (n m : nat) : format_04d n = format_04d m -> n = m.
Proof.
  intros H.
  assert (E : parse_nat (format_04d n) = parse_nat (format_04d m))
    by now rewrite H.
  rewrite !parse_format_04d in E. congruence.
Qed.

Lemma task_id_of_inj (n m : nat) : task_id_of n = task_id_of m -> n = m.
Proof.
  unfold task_id_of. simpl. intros H.
  apply format_04d_inj. congruence.
Qed.

(** ** What each method does to the coordinator *)

Ltac py_unfold :=
  unfold execute_task, execute_task_enter, execute_task_try, create_task,
    register_agent, unregister_agent, reset, get_task_status, update_task,
    getitem_agent, call_execute, try_except, bind, ret, raise,
    get_agents, get_tasks, get_task_counter,
    put_agents, put_tasks, put_task_counter in *;
  cbn [fst snd agents tasks task_counter calls] in *.

Lemma create_task_registered name descr self :
  PyDict.contains (agents self) name = true ->
  create_task name descr self =
  (mkCoordinator
     (agents self)
     (PyDict.set (tasks self) (task_id_of (task_counter self + 1))
        (new_task (task_id_of (task_counter self + 1)) name descr))
     (task_counter self + 1) (calls self),
   Return (task_id_of (task_counter self + 1))).
Proof.
  intros H. py_unfold. now rewrite H.
Qed.

Lemma create_task_unregistered name descr self :
  PyDict.contains (agents self) name = false ->
  create_task name descr self =
  (self, Raise (ValueError ("Agent '" ++ name ++ "' is not registered"))).
Proof.
  intros H. py_unfold. now rewrite H.
Qed.

Lemma execute_task_missing tid self :
  PyDict.get (tasks self) tid = None ->
  execute_task tid self =
  (self, Raise (ValueError ("Task '" ++ tid ++ "' not found"))).
Proof.
  intros H. py_unfold. now rewrite H.
Qed.

Lemma execute_task_found tid task self :
  PyDict.get (tasks self) tid = Some task ->
  execute_task tid self =
  (mkCoordinator (agents self)
     (PyDict.set (tasks self) tid (finished task (dispatch self task)))
     (task_counter self) (calls_after self task),
   reported (dispatch self task)).
Proof.
  intros H. unfold dispatch, calls_after, finished, reported. py_unfold.
  rewrite H. cbn. rewrite H. cbn.
  destruct (PyDict.get (agents self) (agent_name task)) as [agent|]; cbn.
  - destruct (execute agent (calls self) (description task)) as [r|e]; cbn.
    + rewrite PyDictFacts.get_set_same. cbn.
      now rewrite PyDictFacts.set_set.
    + destruct (is_exception e); cbn; [|reflexivity].
      rewrite PyDictFacts.get_set_same. cbn.
      now rewrite PyDictFacts.set_set.
  - rewrite PyDictFacts.get_set_same. cbn.
    now rewrite PyDictFacts.set_set.
Qed.

(** ** Failure reporting *)

(** C6: [create_task] for a name that is not in the registry raises the
    [ValueError] of an unknown agent and leaves the whole coordinator, hence
    the task table and the counter, as it was. *)
Theorem create_task_unknown_agent (name descr : string)
        (self : AgentCoordinator) :
  PyDict.contains (agents self) name = false ->
  snd (create_task name descr self)
  = Raise (ValueError ("Agent '" ++ name ++ "' is not registered"))
  /\ fst (create_task name descr self) = self
  /\ tasks (fst (create_task name descr self)) = tasks self
  /\ task_counter (fst (create_task name descr self)) = task_counter self.
Proof.
  intros H. rewrite (create_task_unregistered _ _ _ H). cbn. auto.
Qed.

Lemma create_task_unknown_agent_witness :
  snd (create_task "ghost" "anything" new_coordinator)
  = Raise (ValueError "Agent 'ghost' is not registered")
  /\ fst (create_task "ghost" "anything" new_coordinator) = new_coordinator
  /\ tasks (fst (create_task "ghost" "anything" new_coordinator)) = []
  /\ task_counter (fst (create_task "ghost" "anything" new_coordinator)) = 0.
Proof.
  apply (create_task_unknown_agent "ghost" "anything" new_coordinator).
  reflexivity.
Defined.

(** C5, as the code has it: when the handle of a task's agent raises an
    instance [e] of [Exception], [execute_task] raises a [RuntimeError]
    whose message is "Task execution failed: " followed by [str(e)] and
    whose cause is [e]; the task is left FAILED with that same message as
    its error, every other entry of the task table is as before, and so are
    the registry and the counter. *)
Theorem execute_task_handle_raises (tid : string) (task : AgentTask)
        (agent : Agent) (e : PyExn) (self : AgentCoordinator) :
  PyDict.get (tasks self) tid = Some task ->
  PyDict.get (agents self) (agent_name task) = Some agent ->
  execute agent (calls self) (description task) = Raise e ->
  is_exception e = true ->
  let error_msg := ("Task execution failed: " ++ exn_str e)%string in
  let self' := fst (execute_task tid self) in
  snd (execute_task tid self) = Raise (RuntimeError error_msg (Some e))
  /\ PyDict.get (tasks self') tid
     = Some (mkTask (task_id task) (agent_name task) (description task)
                    FAILED (result task) (Some error_msg))
  /\ (forall tid', tid' <> tid ->
        PyDict.get (tasks self') tid' = PyDict.get (tasks self) tid')
  /\ agents self' = agents self
  /\ task_counter self' = task_counter self.
Proof.
  intros Ht Ha He Hexc error_msg self'. subst self'.
  rewrite (execute_task_found _ _ _ Ht).
  unfold dispatch. rewrite Ha, He.
  cbn [fst snd tasks agents task_counter reported finished].
  rewrite Hexc.
  repeat split.
  - now rewrite PyDictFacts.get_set_same.
  - intros tid' Hne. apply PyDictFacts.get_set_other. congruence.
Qed.

Lemma execute_task_handle_raises_witness :
  snd (execute_task "task_0001" one_doomed)
  = Raise (RuntimeError "Task execution failed: no credit"
             (Some (OtherError "Exception" "no credit")))
  /\ PyDict.get (tasks (fst (execute_task "task_0001" one_doomed)))
                "task_0001"
     = Some (mkTask "task_0001" "agent1" "Task 1 for Agent 1" FAILED PyNone
                    (Some "Task execution failed: no credit"))
  /\ (forall tid', tid' <> "task_0001" ->
        PyDict.get (tasks (fst (execute_task "task_0001" one_doomed))) tid'
        = PyDict.get (tasks one_doomed) tid')
  /\ agents (fst (execute_task "task_0001" one_doomed)) = agents one_doomed
  /\ task_counter (fst (execute_task "task_0001" one_doomed)) = 1.
Proof.
  apply (execute_task_handle_raises "task_0001"
           (new_task "task_0001" "agent1" "Task 1 for Agent 1")
           (FailingAgent "no credit")
           (OtherError "Exception" "no credit") one_doomed);
    reflexivity.
Defined.

(** C5, as the specification states it, fails: a handle that raises
    [KeyboardInterrupt] is not caught by [except Exception].  The task is
    left IN_PROGRESS with no error, and what [execute_task] raises is the
    [KeyboardInterrupt] itself, not a [RuntimeError]. *)
Lemma interrupted_task_not_failed :
  PyDict.get (tasks one_interrupted) "task_0001"
  = Some (new_task "task_0001" "agent1" "Task 1 for Agent 1")
  /\ PyDict.get (agents one_interrupted) "agent1" = Some InterruptedAgent
  /\ execute InterruptedAgent (calls one_interrupted) "Task 1 for Agent 1"
     = Raise (BaseError "KeyboardInterrupt" EmptyString)
  /\ snd (execute_task "task_0001" one_interrupted)
     = Raise (BaseError "KeyboardInterrupt" EmptyString)
  /\ PyDict.get (tasks (fst (execute_task "task_0001" one_interrupted)))
                "task_0001"
     = Some (mkTask "task_0001" "agent1" "Task 1 for Agent 1" IN_PROGRESS
                    PyNone None).
Proof.
  repeat split; reflexivity.
Qed.

(** C7, as the code has it: when the agent of a task is no longer in the
    registry, the [KeyError] of the lookup is raised inside the [try] block
    and caught by its [except] clause.  [execute_task] raises a
    [RuntimeError] whose message is "Task execution failed: " followed by
    the [repr] of the agent name and whose cause is that [KeyError]; the task
    is left FAILED with the same message, and no handle is invoked. *)
Theorem execute_task_agent_unregistered (tid : string) (task : AgentTask)
        (self : AgentCoordinator) :
  PyDict.get (tasks self) tid = Some task ->
  PyDict.get (agents self) (agent_name task) = None ->
  let error_msg :=
    ("Task execution failed: " ++ py_repr (agent_name task))%string in
  let self' := fst (execute_task tid self) in
  snd (execute_task tid self)
  = Raise (RuntimeError error_msg (Some (KeyError (agent_name task))))
  /\ raises_key_error (snd (execute_task tid self)) = false
  /\ PyDict.get (tasks self') tid
     = Some (mkTask (task_id task) (agent_name task) (description task)
                    FAILED (result task) (Some error_msg))
  /\ calls self' = calls self.
Proof.
  intros Ht Ha error_msg self'. subst self'.
  rewrite (execute_task_found _ _ _ Ht).
  unfold dispatch, calls_after. rewrite Ha.
  cbn [fst snd tasks calls reported finished raises_key_error].
  repeat split.
  now rewrite PyDictFacts.get_set_same.
Qed.

Lemma execute_task_agent_unregistered_witness :
  snd (execute_task "task_0001" one_orphan)
  = Raise (RuntimeError "Task execution failed: 'agent1'"
             (Some (KeyError "agent1")))
  /\ raises_key_error (snd (execute_task "task_0001" one_orphan)) = false
  /\ PyDict.get (tasks (fst (execute_task "task_0001" one_orphan)))
                "task_0001"
     = Some (mkTask "task_0001" "agent1" "Task 1 for Agent 1" FAILED PyNone
                    (Some "Task execution failed: 'agent1'"))
  /\ calls (fst (execute_task "task_0001" one_orphan)) = 0.
Proof.
  apply (execute_task_agent_unregistered "task_0001"
           (new_task "task_0001" "agent1" "Task 1 for Agent 1") one_orphan);
    reflexivity.
Defined.

(** C7, as the specification states it, fails: with the agent unregistered after the
    task was created, what [execute_task] raises is not a [KeyError]. *)
Lemma execute_task_orphan_not_key_error :
  PyDict.get (tasks one_orphan) "task_0001"
  = Some (new_task "task_0001" "agent1" "Task 1 for Agent 1")
  /\ PyDict.contains (agents one_orphan) "agent1" = false
  /\ raises_key_error (snd (execute_task "task_0001" one_orphan)) = false
  /\ snd (execute_task "task_0001" one_orphan)
     = Raise (RuntimeError "Task execution failed: 'agent1'"
                (Some (KeyError "agent1"))).
Proof.
  repeat split; reflexivity.
Qed.

(** ** Read-only queries and reset *)

Lemma count_status_length (s : TaskStatus) (self : AgentCoordinator) :
  count_status s self
  = List.length (filter (has_status s) (PyDict.values (tasks self))).
Proof.
  unfold count_status.
  induction (filter (has_status s) (PyDict.values (tasks self))) as [|t l IH];
    cbn; auto.
Qed.

Lemma status_partition (l : list AgentTask) :
  List.length (filter (has_status PENDING) l)
  + List.length (filter (has_status IN_PROGRESS) l)
  + List.length (filter (has_status COMPLETED) l)
  + List.length (filter (has_status FAILED) l)
  = List.length l.
Proof.
  induction l as [|t l IH]; cbn [filter]; auto.
  unfold has_status in *.
  destruct (status t); cbn [status_eqb List.length]; lia.
Qed.

(** C8: in every coordinator state, the four entries of [status_counts] in
    the summary add up to its [total_tasks]. *)
Theorem summary_counts_sum (self : AgentCoordinator) :
  exists p i c f : nat,
    PyDict.get (status_counts (get_workflow_summary self)) "pending" = Some p
    /\ PyDict.get (status_counts (get_workflow_summary self)) "in_progress"
       = Some i
    /\ PyDict.get (status_counts (get_workflow_summary self)) "completed"
       = Some c
    /\ PyDict.get (status_counts (get_workflow_summary self)) "failed"
       = Some f
    /\ PyDict.len (status_counts (get_workflow_summary self)) = 4
    /\ p + i + c + f = total_tasks (get_workflow_summary self).
Proof.
  exists (count_status PENDING self), (count_status IN_PROGRESS self),
         (count_status COMPLETED self), (count_status FAILED self).
  repeat split.
  cbn [get_workflow_summary total_tasks].
  rewrite !count_status_length. unfold PyDict.len.
  rewrite status_partition. unfold PyDict.values. apply length_map.
Qed.

(** C9: [reset] empties the task table, puts the counter back to the value
    a new coordinator starts with, which is 0, and leaves the registry as
    it was. *)
Theorem reset_clears_tasks_only (self : AgentCoordinator) :
  snd (reset self) = Return tt
  /\ tasks (fst (reset self)) = PyDict.empty
  /\ PyDict.len (tasks (fst (reset self))) = 0
  /\ task_counter (fst (reset self)) = task_counter new_coordinator
  /\ task_counter (fst (reset self)) = 0
  /\ agents (fst (reset self)) = agents self.
Proof.
  repeat split.
Qed.

(** C10: the empty string as [agent_name] is falsy, so [get_pending_tasks]
    skips its agent filter and returns every pending task, as it does for
    [None]; an agent registered under the empty name makes no difference. *)
Theorem get_pending_tasks_empty_name (self : AgentCoordinator) :
  get_pending_tasks (Some EmptyString) self = get_pending_tasks None self
  /\ get_pending_tasks (Some EmptyString) self
     = filter (has_status PENDING) (PyDict.values (tasks self))
  /\ (forall (c : ascii) (s : string),
        get_pending_tasks (Some (String c s)) self
        = filter (fun t => String.eqb (agent_name t) (String c s))
            (filter (has_status PENDING) (PyDict.values (tasks self)))).
Proof.
  repeat split.
Qed.

(** With one pending task for the agent registered as the empty string and
    one for another agent, the empty string selects both. *)
Example pending_tasks_with_empty_agent_name :
  let self :=
    perform_all [CallRegister EmptyString (MockAgent "Anonymous");
                 CallRegister "agent1" (MockAgent "Agent1");
                 CallCreateTask EmptyString "first";
                 CallCreateTask "agent1" "second"] new_coordinator in
  map task_id (get_pending_tasks (Some EmptyString) self)
  = ["task_0001"; "task_0002"]
  /\ map task_id (get_agent_tasks EmptyString self) = ["task_0001"].
Proof.
  split; reflexivity.
Qed.

(** ** Workflows *)

Lemma workflow_loop_step (step : PyDict.t string)
      (rest : list (PyDict.t string)) (results : list PyValue)
      (name descr : string) (self : AgentCoordinator) :
  PyDict.get step "agent_name" = Some name ->
  PyDict.get step "description" = Some descr ->
  workflow_loop (step :: rest) results self
  = match create_task name descr self with
    | (self1, Return tid) =>
        match execute_task tid self1 with
        | (self2, Return r) => workflow_loop rest (results ++ [r]) self2
        | (self2, Raise e) => (self2, Raise e)
        end
    | (self1, Raise e) => (self1, Raise e)
    end.
Proof.
  intros Hn Hd. cbn [workflow_loop].
  unfold getitem_step, bind at 1 2 3, ret. rewrite Hn, Hd.
  destruct (create_task name descr self) as [self1 [tid|e]]; auto.
Qed.

(** C4, as the code has it: in a workflow of three steps whose first handle
    returns and whose second handle raises an instance of [Exception],
    [execute_workflow] raises the [RuntimeError] of the second step and
    returns no list; the task of step 1 is COMPLETED with its
    result, the task of step 2 is FAILED, the counter has advanced by two and
    no other entry of the task table has changed, so no task exists for
    step 3 and no third handle invocation was made; [get_task_status] still
    gives the result of step 1. *)
Theorem execute_workflow_second_step_raises
        (s1 s2 s3 : PyDict.t string) (a1 d1 a2 d2 : string)
        (agent1 agent2 : Agent) (r1 : PyValue) (e2 : PyExn)
        (self : AgentCoordinator) :
  PyDict.get s1 "agent_name" = Some a1 ->
  PyDict.get s1 "description" = Some d1 ->
  PyDict.get s2 "agent_name" = Some a2 ->
  PyDict.get s2 "description" = Some d2 ->
  PyDict.get (agents self) a1 = Some agent1 ->
  PyDict.get (agents self) a2 = Some agent2 ->
  execute agent1 (calls self) d1 = Return r1 ->
  execute agent2 (S (calls self)) d2 = Raise e2 ->
  is_exception e2 = true ->
  let id1 := task_id_of (task_counter self + 1) in
  let id2 := task_id_of (task_counter self + 2) in
  let error_msg := ("Task execution failed: " ++ exn_str e2)%string in
  let self' := fst (execute_workflow [s1; s2; s3] self) in
  snd (execute_workflow [s1; s2; s3] self)
  = Raise (RuntimeError error_msg (Some e2))
  /\ PyDict.get (tasks self') id1
     = Some (mkTask id1 a1 d1 COMPLETED r1 None)
  /\ PyDict.get (tasks self') id2
     = Some (mkTask id2 a2 d2 FAILED PyNone (Some error_msg))
  /\ task_counter self' = task_counter self + 2
  /\ calls self' = calls self + 2
  /\ (forall tid, tid <> id1 -> tid <> id2 ->
        PyDict.get (tasks self') tid = PyDict.get (tasks self) tid)
  /\ snd (get_task_status id1 self')
     = Return [ ("task_id", PyStr id1); ("agent_name", PyStr a1);
                ("description", PyStr d1); ("status", PyStr "completed");
                ("result", r1); ("error", PyNone) ].
Proof.
  intros Hn1 Hd1 Hn2 Hd2 Ha1 Ha2 He1 He2 Hexc id1 id2 error_msg self'.
  assert (Hne : id2 <> id1).
  { intros E. apply task_id_of_inj in E. lia. }
  assert (Hrun : execute_workflow [s1; s2; s3] self
    = (mkCoordinator (agents self)
         (PyDict.set
            (PyDict.set (tasks self) id1 (mkTask id1 a1 d1 COMPLETED r1 None))
            id2 (mkTask id2 a2 d2 FAILED PyNone (Some error_msg)))
         (task_counter self + 2) (calls self + 2),
       Raise (RuntimeError error_msg (Some e2)))).
  { unfold execute_workflow.
    rewrite (workflow_loop_step _ _ _ _ _ _ Hn1 Hd1).
    rewrite (create_task_registered _ _ _ (PyDictFacts.get_contains _ _ _ Ha1)).
    fold id1.
    erewrite execute_task_found
      by (cbn [tasks]; apply PyDictFacts.get_set_same).
    unfold dispatch, calls_after.
    cbn [agents calls tasks task_counter new_task agent_name description].
    rewrite Ha1, He1. cbn [reported finished].
    rewrite PyDictFacts.set_set.
    rewrite (workflow_loop_step _ _ _ _ _ _ Hn2 Hd2).
    rewrite create_task_registered
      by (cbn [agents]; apply (PyDictFacts.get_contains _ _ _ Ha2)).
    cbn [agents calls tasks task_counter].
    replace (task_counter self + 1 + 1) with (task_counter self + 2) by lia.
    fold id2.
    erewrite execute_task_found
      by (cbn [tasks]; apply PyDictFacts.get_set_same).
    unfold dispatch, calls_after.
    cbn [agents calls tasks task_counter new_task agent_name description].
    rewrite Ha2, He2. cbn [reported finished]. rewrite Hexc.
    rewrite PyDictFacts.set_set.
    replace (S (S (calls self))) with (calls self + 2) by lia.
    reflexivity. }
  subst self'. rewrite Hrun. cbn [fst snd tasks task_counter calls].
  assert (G1 : PyDict.get
                 (PyDict.set
                    (PyDict.set (tasks self) id1
                                (mkTask id1 a1 d1 COMPLETED r1 None))
                    id2 (mkTask id2 a2 d2 FAILED PyNone (Some error_msg))) id1
               = Some (mkTask id1 a1 d1 COMPLETED r1 None)).
  { rewrite PyDictFacts.get_set_other by exact Hne.
    apply PyDictFacts.get_set_same. }
  repeat split; auto.
  - apply PyDictFacts.get_set_same.
  - intros tid H1 H2.
    rewrite !PyDictFacts.get_set_other; congruence.
  - unfold get_task_status, bind, get_tasks, ret.
    cbn [fst snd tasks]. now rewrite G1.
Qed.

(** Whatever is kept by a failed or successful [create_task], and by
    [execute_task] on the identifier just created, is kept by a workflow. *)
Lemma workflow_loop_preserves (P : AgentCoordinator -> Prop) :
  (forall name descr self, P self -> P (fst (create_task name descr self))) ->
  (forall name descr self tid,
      P self ->
      snd (create_task name descr self) = Return tid ->
      P (fst (execute_task tid (fst (create_task name descr self))))) ->
  forall steps results self,
    P self -> P (fst (workflow_loop steps results self)).
Proof.
  intros Hc He steps.
  induction steps as [|step rest IH]; intros results self HP.
  - exact HP.
  - cbn [workflow_loop]. unfold getitem_step.
    destruct (PyDict.get step "agent_name") as [name|]; [|exact HP].
    destruct (PyDict.get step "description") as [descr|]; [|exact HP].
    unfold bind at 1 2, ret.
    specialize (Hc name descr self HP).
    specialize (He name descr self).
    unfold bind at 1.
    destruct (create_task name descr self) as [self1 [tid|e]];
      cbn [fst snd] in *; [|exact Hc].
    specialize (He tid HP eq_refl).
    unfold bind.
    destruct (execute_task tid self1) as [self2 [r|e]];
      cbn [fst snd] in *; [|exact He].
    apply (IH (results ++ [r]) self2 He).
Qed.

(** A workflow is the sequence of [create_task] and [execute_task] calls it
    makes, and nothing else. *)
Lemma workflow_loop_as_calls (steps : list (PyDict.t string))
      (results : list PyValue) (self : AgentCoordinator) :
  fst (workflow_loop steps results self)
  = perform_all (workflow_calls steps self) self
  /\ no_reset (workflow_calls steps self) = true.
Proof.
  revert results self.
  induction steps as [|step rest IH]; intros results self.
  - split; reflexivity.
  - cbn [workflow_loop workflow_calls]. unfold getitem_step.
    destruct (PyDict.get step "agent_name") as [name|];
      [|split; reflexivity].
    destruct (PyDict.get step "description") as [descr|];
      [|split; reflexivity].
    unfold bind at 1 2, ret. unfold bind at 1.
    destruct (create_task name descr self) as [self1 [tid|e]] eqn:Ec.
    + unfold bind.
      destruct (execute_task tid self1) as [self2 [r|e]] eqn:Ee.
      * destruct (IH (results ++ [r]) self2) as [IH1 IH2].
        split.
        -- rewrite IH1. cbn [perform_all fold_left perform].
           rewrite Ec. cbn [fst]. now rewrite Ee.
        -- exact IH2.
      * split; [|reflexivity].
        cbn [perform_all fold_left perform]. rewrite Ec. cbn [fst].
        now rewrite Ee.
    + split; [|reflexivity].
      cbn [perform_all fold_left perform]. now rewrite Ec.
Qed.

Lemma create_task_cases name descr self :
  (PyDict.contains (agents self) name = false
   /\ create_task name descr self
      = (self,
         Raise (ValueError ("Agent '" ++ name ++ "' is not registered"))))
  \/ (PyDict.contains (agents self) name = true
      /\ create_task name descr self
         = (mkCoordinator
              (agents self)
              (PyDict.set (tasks self) (task_id_of (task_counter self + 1))
                 (new_task (task_id_of (task_counter self + 1)) name descr))
              (task_counter self + 1) (calls self),
            Return (task_id_of (task_counter self + 1)))).
Proof.
  destruct (PyDict.contains (agents self) name) eqn:E.
  - right. split; auto. now apply create_task_registered.
  - left. split; auto. now apply create_task_unregistered.
Qed.

Lemma execute_task_cases tid self :
  (PyDict.get (tasks self) tid = None
   /\ fst (execute_task tid self) = self)
  \/ (exists task,
         PyDict.get (tasks self) tid = Some task
         /\ fst (execute_task tid self)
            = mkCoordinator (agents self)
                (PyDict.set (tasks self) tid
                            (finished task (dispatch self task)))
                (task_counter self) (calls_after self task)).
Proof.
  destruct (PyDict.get (tasks self) tid) as [task|] eqn:E.
  - right. exists task. split; auto. now rewrite (execute_task_found _ _ _ E).
  - left. split; auto. now rewrite (execute_task_missing _ _ E).
Qed.

Lemma agents_create_task name descr self :
  agents (fst (create_task name descr self)) = agents self.
Proof.
  destruct (create_task_cases name descr self) as [[_ ->]|[_ ->]]; auto.
Qed.

Lemma agents_execute_task tid self :
  agents (fst (execute_task tid self)) = agents self.
Proof.
  destruct (execute_task_cases tid self) as [[_ ->]|[task [_ ->]]]; auto.
Qed.

Lemma agents_workflow_loop steps results self :
  agents (fst (workflow_loop steps results self)) = agents self.
Proof.
  apply (workflow_loop_preserves (fun s => agents s = agents self)); auto.
  - intros n d s Hs. now rewrite agents_create_task.
  - intros n d s tid Hs _.
    now rewrite agents_execute_task, agents_create_task.
Qed.

Lemma unregister_agent_cases name self :
  (PyDict.contains (agents self) name = false
   /\ unregister_agent name self = (self, Return tt))
  \/ (PyDict.contains (agents self) name = true
      /\ unregister_agent name self
         = (mkCoordinator (PyDict.del (agents self) name) (tasks self)
                          (task_counter self) (calls self),
            Return tt)).
Proof.
  unfold unregister_agent, bind, get_agents, put_agents, ret.
  destruct (PyDict.contains (agents self) name); auto.
Qed.

(** ** Identifier allocation *)

Lemma create_task_counter name descr self :
  task_counter self <= task_counter (fst (create_task name descr self)).
Proof.
  destruct (create_task_cases name descr self) as [[_ ->]|[_ ->]]; cbn; lia.
Qed.

Lemma execute_task_counter tid self :
  task_counter (fst (execute_task tid self)) = task_counter self.
Proof.
  destruct (execute_task_cases tid self) as [[_ ->]|[task [_ ->]]]; auto.
Qed.

Lemma perform_counter (c : Call) (self : AgentCoordinator) :
  is_reset c = false ->
  task_counter self <= task_counter (perform c self).
Proof.
  destruct c as [name a|name|name descr|tid|steps|]; cbn [perform is_reset];
    intros Hr; try discriminate.
  - cbn. lia.
  - unfold unregister_agent, bind, get_agents.
    destruct (PyDict.contains (agents self) name); cbn; lia.
  - apply create_task_counter.
  - rewrite execute_task_counter. lia.
  - unfold execute_workflow.
    apply (workflow_loop_preserves
             (fun s => task_counter self <= task_counter s)); try lia.
    + intros n d s Hs.
      pose proof (create_task_counter n d s). lia.
    + intros n d s tid Hs _. rewrite execute_task_counter.
      pose proof (create_task_counter n d s). lia.
Qed.

Lemma perform_all_counter (cs : list Call) (self : AgentCoordinator) :
  no_reset cs = true ->
  task_counter self <= task_counter (perform_all cs self).
Proof.
  revert self.
  induction cs as [|c cs IH]; intros self Hn; cbn in *; auto.
  apply andb_true_iff in Hn. destruct Hn as [Hc Hn].
  apply negb_true_iff in Hc.
  pose proof (perform_counter c self Hc).
  specialize (IH (perform c self) Hn). unfold perform_all in IH. lia.
Qed.

(** C3, as the code has it: as long as the coordinator is not reset, two
    successful [create_task] calls never return the same identifier; the
    identifiers are the counter values they were allocated from, which grow
    strictly from the earlier call to the later one. *)
Theorem create_task_ids_distinct_between_resets
        (name1 descr1 name2 descr2 : string) (between : list Call)
        (self self1 self2 : AgentCoordinator) (id1 id2 : string) :
  create_task name1 descr1 self = (self1, Return id1) ->
  no_reset between = true ->
  create_task name2 descr2 (perform_all between self1) = (self2, Return id2) ->
  id1 <> id2
  /\ exists n1 n2, id1 = task_id_of n1 /\ id2 = task_id_of n2 /\ n1 < n2.
Proof.
  intros H1 Hb H2.
  pose proof (perform_all_counter between self1 Hb) as Hle.
  destruct (create_task_cases name1 descr1 self) as [[_ E]|[_ E]];
    rewrite E in H1; inversion H1; subst self1 id1; clear H1 E.
  destruct (create_task_cases name2 descr2
              (perform_all between
                 (mkCoordinator (agents self)
                    (PyDict.set (tasks self)
                       (task_id_of (task_counter self + 1))
                       (new_task (task_id_of (task_counter self + 1))
                                 name1 descr1))
                    (task_counter self + 1) (calls self))))
    as [[_ E]|[_ E]];
    rewrite E in H2; inversion H2; subst id2; clear H2 E.
  cbn [task_counter] in Hle.
  split.
  - intros Heq. apply task_id_of_inj in Heq. lia.
  - eexists _, _. repeat split. lia.
Qed.

(** ** Invariants of the task table *)

Lemma all_tasks_set (Q : AgentTask -> Prop) (d : PyDict.t AgentTask)
      (k : string) (v : AgentTask) :
  (forall tid t, PyDict.get d tid = Some t -> Q t) ->
  Q v ->
  forall tid t, PyDict.get (PyDict.set d k v) tid = Some t -> Q t.
Proof.
  intros Hd Hv tid t. rewrite PyDictFacts.get_set.
  destruct (String.eqb k tid).
  - intros [= <-]. exact Hv.
  - apply Hd.
Qed.

Lemma all_tasks_create (Q : AgentTask -> Prop) name descr self :
  (forall tid, Q (new_task tid name descr)) ->
  all_tasks Q self -> all_tasks Q (fst (create_task name descr self)).
Proof.
  intros Hnew HQ.
  destruct (create_task_cases name descr self) as [[_ ->]|[_ ->]]; auto.
  cbn [fst]. unfold all_tasks. cbn [tasks].
  apply all_tasks_set; auto.
Qed.

Lemma all_tasks_execute (Q : AgentTask -> Prop) tid self :
  (forall task, PyDict.get (tasks self) tid = Some task ->
                Q (finished task (dispatch self task))) ->
  all_tasks Q self -> all_tasks Q (fst (execute_task tid self)).
Proof.
  intros Hfin HQ.
  destruct (execute_task_cases tid self) as [[_ ->]|[task [Ht ->]]]; auto.
  unfold all_tasks. cbn [tasks].
  apply all_tasks_set; auto.
Qed.

Lemma execute_created_task name descr self tid :
  snd (create_task name descr self) = Return tid ->
  PyDict.get (tasks (fst (create_task name descr self))) tid
  = Some (new_task tid name descr).
Proof.
  destruct (create_task_cases name descr self) as [[_ ->]|[_ ->]];
    cbn [fst snd tasks]; intros [= <-].
  apply PyDictFacts.get_set_same.
Qed.

Lemma settled_new tid name descr : settled (new_task tid name descr).
Proof.
  unfold settled. cbn. intuition congruence.
Qed.

Lemma settled_finished task o : settled (finished task o).
Proof.
  unfold settled.
  destruct o as [r|e]; cbn; [|destruct (is_exception e); cbn];
    intuition congruence.
Qed.

Lemma consistent_new tid name descr : consistent (new_task tid name descr).
Proof.
  split; reflexivity.
Qed.

Lemma consistent_finished task o :
  status task = PENDING -> consistent task -> consistent (finished task o).
Proof.
  unfold consistent. intros -> [Hr He].
  destruct o as [r|e]; cbn; auto.
  destruct (is_exception e); cbn; auto. split; auto. congruence.
Qed.

Lemma dispatch_polite task self e :
  polite_registry self ->
  dispatch self task = Raise e -> is_exception e = true.
Proof.
  intros Hp. unfold dispatch.
  destruct (PyDict.get (agents self) (agent_name task)) as [a|] eqn:E.
  - apply (Hp a). now apply (PyDictFacts.get_In_values _ (agent_name task)).
  - now intros [= <-].
Qed.

Lemma status_finished_polite task self :
  polite_registry self ->
  status (finished task (dispatch self task)) = COMPLETED
  \/ status (finished task (dispatch self task)) = FAILED.
Proof.
  intros Hp.
  destruct (dispatch self task) as [r|e] eqn:E; cbn; auto.
  rewrite (dispatch_polite _ _ _ Hp E). cbn. auto.
Qed.

Lemma polite_registry_perform (c : Call) (self : AgentCoordinator) :
  polite c -> polite_registry self -> polite_registry (perform c self).
Proof.
  intros Hc Hp.
  destruct c as [name a|name|name descr|tid|steps|]; cbn [perform polite] in *.
  - intros b Hb. cbn in Hb.
    destruct (PyDictFacts.In_values_set _ _ _ _ Hb) as [->|Hin]; auto.
  - destruct (unregister_agent_cases name self) as [[_ ->]|[_ ->]]; auto.
    intros b Hb. cbn in Hb. apply Hp.
    now apply (PyDictFacts.In_values_del _ name).
  - unfold polite_registry. now rewrite agents_create_task.
  - unfold polite_registry. now rewrite agents_execute_task.
  - unfold polite_registry, execute_workflow.
    now rewrite agents_workflow_loop.
  - exact Hp.
Qed.

Lemma at_rest_perform (c : Call) (self : AgentCoordinator) :
  polite_registry self ->
  all_tasks at_rest self -> all_tasks at_rest (perform c self).
Proof.
  intros Hp H.
  assert (Hfin : forall s tid, polite_registry s ->
            forall task, PyDict.get (tasks s) tid = Some task ->
                         at_rest (finished task (dispatch s task))).
  { intros s tid Hs task _. unfold at_rest.
    destruct (status_finished_polite task s Hs) as [E|E]; rewrite E;
      discriminate. }
  destruct c as [name a|name|name descr|tid|steps|]; cbn [perform].
  - exact H.
  - unfold unregister_agent, bind, get_agents.
    destruct (PyDict.contains (agents self) name); exact H.
  - apply all_tasks_create; auto. intros; discriminate.
  - apply all_tasks_execute; auto. apply Hfin; auto.
  - unfold execute_workflow.
    apply (workflow_loop_preserves
             (fun s => polite_registry s /\ all_tasks at_rest s)); auto.
    + intros n d s [Hs Ha]. split.
      * unfold polite_registry. now rewrite agents_create_task.
      * apply all_tasks_create; auto. intros; discriminate.
    + intros n d s tid [Hs Ha] _.
      assert (Hs1 : polite_registry (fst (create_task n d s)))
        by (unfold polite_registry; now rewrite agents_create_task).
      split.
      * unfold polite_registry. now rewrite agents_execute_task.
      * apply all_tasks_execute; [apply Hfin; auto|].
        apply all_tasks_create; auto. intros; discriminate.
  - intros tid t. cbn. discriminate.
Qed.

Lemma polite_perform_all (cs : list Call) (self : AgentCoordinator) :
  Forall polite cs ->
  polite_registry self -> all_tasks at_rest self ->
  polite_registry (perform_all cs self)
  /\ all_tasks at_rest (perform_all cs self).
Proof.
  revert self. induction cs as [|c cs IH]; intros self Hc Hp Ha; cbn; auto.
  inversion Hc; subst. apply IH; auto.
  - now apply polite_registry_perform.
  - now apply at_rest_perform.
Qed.

Lemma polite_registry_new_coordinator : polite_registry new_coordinator.
Proof.
  intros a [].
Qed.

Lemma perform_settled (c : Call) (self : AgentCoordinator) :
  all_tasks settled self -> all_tasks settled (perform c self).
Proof.
  intros H.
  destruct c as [name a|name|name descr|tid|steps|]; cbn [perform].
  - exact H.
  - unfold unregister_agent, bind, get_agents.
    destruct (PyDict.contains (agents self) name); exact H.
  - apply all_tasks_create; auto. intros; apply settled_new.
  - apply all_tasks_execute; auto. intros; apply settled_finished.
  - unfold execute_workflow. apply workflow_loop_preserves; auto.
    + intros n d s Hs. apply all_tasks_create; auto.
      intros; apply settled_new.
    + intros n d s tid Hs _. apply all_tasks_execute.
      * intros; apply settled_finished.
      * apply all_tasks_create; auto. intros; apply settled_new.
  - intros tid t. cbn. discriminate.
Qed.

Lemma perform_consistent (c : Call) (self : AgentCoordinator) :
  executes_pending c self = true ->
  all_tasks consistent self -> all_tasks consistent (perform c self).
Proof.
  intros Hp H.
  destruct c as [name a|name|name descr|tid|steps|];
    cbn [perform executes_pending] in *.
  - exact H.
  - unfold unregister_agent, bind, get_agents.
    destruct (PyDict.contains (agents self) name); exact H.
  - apply all_tasks_create; auto. intros; apply consistent_new.
  - apply all_tasks_execute; auto.
    intros task Ht. rewrite Ht in Hp.
    apply consistent_finished.
    + unfold has_status in Hp. now destruct (status task).
    + apply (H _ _ Ht).
  - unfold execute_workflow. apply workflow_loop_preserves; auto.
    + intros n d s Hs. apply all_tasks_create; auto.
      intros; apply consistent_new.
    + intros n d s tid Hs Hc. apply all_tasks_execute.
      * intros task Ht. rewrite (execute_created_task _ _ _ _ Hc) in Ht.
        injection Ht as <-.
        apply consistent_finished; [reflexivity|apply consistent_new].
      * apply all_tasks_create; auto. intros; apply consistent_new.
  - intros tid t. cbn. discriminate.
Qed.

Lemma perform_all_settled (cs : list Call) (self : AgentCoordinator) :
  all_tasks settled self -> all_tasks settled (perform_all cs self).
Proof.
  revert self. induction cs as [|c cs IH]; intros self H; cbn; auto.
  apply IH. now apply perform_settled.
Qed.

Lemma perform_all_consistent (cs : list Call) (self : AgentCoordinator) :
  executed_once cs self = true ->
  all_tasks consistent self -> all_tasks consistent (perform_all cs self).
Proof.
  revert self. induction cs as [|c cs IH]; intros self He H; cbn in *; auto.
  apply andb_true_iff in He. destruct He as [Hc He].
  apply IH; auto. now apply perform_consistent.
Qed.

(** C1, as the code has it: between two calls every task of a coordinator
    whose handles return or raise an [Exception] is PENDING, COMPLETED or
    FAILED; whatever the handles do, a PENDING task has neither result nor
    error and a FAILED task has an error.  When no task was executed again
    after it left PENDING, the error is set exactly when the task is FAILED,
    a result is set only when it is COMPLETED, and the two are never set
    together. *)
Theorem task_fields_follow_status (history : list Call) (tid : string)
        (t : AgentTask) :
  PyDict.get (tasks (perform_all history new_coordinator)) tid = Some t ->
  (Forall polite history ->
   status t = PENDING \/ status t = COMPLETED \/ status t = FAILED)
  /\ (status t = PENDING -> result t = PyNone /\ error t = None)
  /\ (status t = FAILED -> error t <> None)
  /\ (executed_once history new_coordinator = true ->
      (result t <> PyNone -> status t = COMPLETED)
      /\ (error t <> None <-> status t = FAILED)
      /\ ~ (result t <> PyNone /\ error t <> None)).
Proof.
  intros Ht.
  assert (H0 : forall Q, all_tasks Q new_coordinator).
  { intros Q k v. cbn. discriminate. }
  pose proof (perform_all_settled history _ (H0 settled) _ _ Ht)
    as (Hp & Hf).
  split; [|split; [|split]]; auto.
  - intros Hpol.
    destruct (polite_perform_all history _ Hpol
                polite_registry_new_coordinator (H0 at_rest)) as [_ Hr].
    specialize (Hr _ _ Ht). unfold at_rest in Hr.
    destruct (status t); auto. congruence.
  - intros Honce.
    pose proof (perform_all_consistent history _ Honce (H0 consistent) _ _ Ht)
      as Hc.
    unfold consistent in Hc.
    destruct (status t); intuition congruence.
Qed.

(** ** Forward progress *)

Lemma fresh_ids_create name descr self :
  fresh_ids self -> fresh_ids (fst (create_task name descr self)).
Proof.
  intros Hf.
  destruct (create_task_cases name descr self) as [[_ ->]|[_ ->]]; auto.
  intros n Hn. cbn [fst tasks task_counter] in *.
  rewrite PyDictFacts.get_set_other.
  - apply Hf. lia.
  - intros E. apply task_id_of_inj in E. lia.
Qed.

Lemma fresh_ids_execute tid self :
  fresh_ids self -> fresh_ids (fst (execute_task tid self)).
Proof.
  intros Hf.
  destruct (execute_task_cases tid self) as [[_ ->]|[task [Ht ->]]]; auto.
  intros n Hn. cbn [tasks task_counter] in *.
  rewrite PyDictFacts.get_set.
  destruct (String.eqb tid (task_id_of n)) eqn:E.
  - apply String.eqb_eq in E. subst tid.
    rewrite (Hf n Hn) in Ht. discriminate.
  - now apply Hf.
Qed.

Lemma fresh_ids_perform (c : Call) (self : AgentCoordinator) :
  fresh_ids self -> fresh_ids (perform c self).
Proof.
  intros Hf.
  destruct c as [name a|name|name descr|tid|steps|]; cbn [perform].
  - exact Hf.
  - unfold unregister_agent, bind, get_agents.
    destruct (PyDict.contains (agents self) name); exact Hf.
  - now apply fresh_ids_create.
  - now apply fresh_ids_execute.
  - unfold execute_workflow. apply workflow_loop_preserves; auto.
    + intros; now apply fresh_ids_create.
    + intros; now apply fresh_ids_execute, fresh_ids_create.
  - intros n _. reflexivity.
Qed.

Lemma fresh_ids_perform_all (cs : list Call) (self : AgentCoordinator) :
  fresh_ids self -> fresh_ids (perform_all cs self).
Proof.
  revert self. induction cs as [|c cs IH]; intros self H; cbn; auto.
  apply IH. now apply fresh_ids_perform.
Qed.

Lemma fresh_ids_new_coordinator : fresh_ids new_coordinator.
Proof.
  intros n _. reflexivity.
Qed.

Lemma same_task_refl t : same_task t t.
Proof.
  repeat split.
Qed.

Lemma advances_refl self : advances self self.
Proof.
  intros tid t Ht. exists t. repeat split; auto.
Qed.

Lemma advances_same_tasks self self' :
  tasks self' = tasks self -> advances self self'.
Proof.
  intros E tid t Ht. rewrite E. exists t. repeat split; auto.
Qed.

Lemma advances_trans a b c : advances a b -> advances b c -> advances a c.
Proof.
  intros Hab Hbc tid t Ht.
  destruct (Hab _ _ Ht) as (t1 & Ht1 & (Hi1 & Hn1 & Hd1) & Hr1).
  destruct (Hbc _ _ Ht1) as (t2 & Ht2 & (Hi2 & Hn2 & Hd2) & Hr2).
  exists t2. repeat split; try congruence. lia.
Qed.

Lemma advances_create name descr self :
  fresh_ids self -> advances self (fst (create_task name descr self)).
Proof.
  intros Hf.
  destruct (create_task_cases name descr self) as [[_ ->]|[_ ->]];
    [apply advances_refl|].
  intros tid t Ht. cbn [fst tasks].
  exists t. split; [|split; [apply same_task_refl|lia]].
  rewrite PyDictFacts.get_set_other; auto.
  intros <-. rewrite Hf in Ht; [discriminate|lia].
Qed.

Lemma same_task_finished task o : same_task task (finished task o).
Proof.
  destruct o as [r|e]; cbn; [|destruct (is_exception e)]; repeat split.
Qed.

Lemma status_finished_not_pending task o :
  status (finished task o) <> PENDING.
Proof.
  destruct o as [r|e]; cbn; [|destruct (is_exception e)]; discriminate.
Qed.

Lemma advances_execute tid self :
  polite_registry self -> advances self (fst (execute_task tid self)).
Proof.
  intros Hp.
  destruct (execute_task_cases tid self) as [[_ ->]|[task [Ht ->]]];
    [apply advances_refl|].
  intros tid' t Ht'. cbn [tasks]. rewrite PyDictFacts.get_set.
  destruct (String.eqb tid tid') eqn:E.
  - apply String.eqb_eq in E. subst tid'.
    rewrite Ht in Ht'. injection Ht' as <-.
    eexists. split; [reflexivity|]. split.
    + apply same_task_finished.
    + destruct (status_finished_polite task self Hp) as [E|E]; rewrite E;
        destruct (status task); cbn; lia.
  - exists t. split; [auto|split; [apply same_task_refl|lia]].
Qed.

Lemma advances_perform (c : Call) (self : AgentCoordinator) :
  is_reset c = false ->
  polite_registry self ->
  fresh_ids self -> advances self (perform c self).
Proof.
  intros Hr Hp Hf.
  destruct c as [name a|name|name descr|tid|steps|];
    cbn [perform is_reset] in *; try discriminate.
  - now apply advances_same_tasks.
  - apply advances_same_tasks.
    unfold unregister_agent, bind, get_agents.
    now destruct (PyDict.contains (agents self) name).
  - now apply advances_create.
  - now apply advances_execute.
  - unfold execute_workflow.
    apply (workflow_loop_preserves
             (fun s => polite_registry s /\ fresh_ids s /\ advances self s)).
    + intros n d s (Hs & Hfs & Ha). split; [|split].
      * unfold polite_registry. now rewrite agents_create_task.
      * now apply fresh_ids_create.
      * eapply advances_trans; [exact Ha|now apply advances_create].
    + intros n d s tid (Hs & Hfs & Ha) _.
      assert (Hs1 : polite_registry (fst (create_task n d s)))
        by (unfold polite_registry; now rewrite agents_create_task).
      split; [|split].
      * unfold polite_registry. now rewrite agents_execute_task.
      * now apply fresh_ids_execute, fresh_ids_create.
      * eapply advances_trans; [exact Ha|].
        eapply advances_trans; [now apply advances_create|].
        now apply advances_execute.
    + split; [exact Hp|split; [exact Hf|apply advances_refl]].
Qed.

Lemma advances_perform_all (cs : list Call) (self : AgentCoordinator) :
  no_reset cs = true ->
  Forall polite cs ->
  polite_registry self ->
  fresh_ids self -> advances self (perform_all cs self).
Proof.
  revert self. induction cs as [|c cs IH]; intros self Hn Hc Hp Hf.
  - apply advances_refl.
  - cbn [no_reset forallb] in Hn.
    apply andb_true_iff in Hn. destruct Hn as [Hr Hn].
    apply negb_true_iff in Hr. inversion Hc; subst.
    apply advances_trans with (b := perform c self).
    + now apply advances_perform.
    + apply (IH (perform c self)); auto.
      * now apply polite_registry_perform.
      * now apply fresh_ids_perform.
Qed.

Lemma polite_registry_reachable (history : list Call) :
  Forall polite history ->
  polite_registry (perform_all history new_coordinator).
Proof.
  intros H.
  apply (polite_perform_all history new_coordinator H
           polite_registry_new_coordinator).
  intros tid t. cbn. discriminate.
Qed.

Lemma persists_refl self : persists self self.
Proof.
  intros tid t Ht. exists t. repeat split; auto.
Qed.

Lemma persists_same_tasks self self' :
  tasks self' = tasks self -> persists self self'.
Proof.
  intros E tid t Ht. rewrite E. exists t. repeat split; auto.
Qed.

Lemma persists_trans a b c : persists a b -> persists b c -> persists a c.
Proof.
  intros Hab Hbc tid t Ht.
  destruct (Hab _ _ Ht) as (t1 & Ht1 & (Hi1 & Hn1 & Hd1) & Hr1).
  destruct (Hbc _ _ Ht1) as (t2 & Ht2 & (Hi2 & Hn2 & Hd2) & Hr2).
  exists t2. repeat split; try congruence. auto.
Qed.

Lemma persists_create name descr self :
  fresh_ids self -> persists self (fst (create_task name descr self)).
Proof.
  intros Hf.
  destruct (create_task_cases name descr self) as [[_ ->]|[_ ->]];
    [apply persists_refl|].
  intros tid t Ht. cbn [fst tasks].
  exists t. split; [|split; [apply same_task_refl|auto]].
  rewrite PyDictFacts.get_set_other; auto.
  intros <-. rewrite Hf in Ht; [discriminate|lia].
Qed.

Lemma persists_execute tid self :
  persists self (fst (execute_task tid self)).
Proof.
  destruct (execute_task_cases tid self) as [[_ ->]|[task [Ht ->]]];
    [apply persists_refl|].
  intros tid' t Ht'. cbn [tasks]. rewrite PyDictFacts.get_set.
  destruct (String.eqb tid tid') eqn:E.
  - apply String.eqb_eq in E. subst tid'.
    rewrite Ht in Ht'. injection Ht' as <-.
    eexists. split; [reflexivity|]. split.
    + apply same_task_finished.
    + intros E. now apply status_finished_not_pending in E.
  - exists t. split; [auto|split; [apply same_task_refl|auto]].
Qed.

Lemma persists_perform (c : Call) (self : AgentCoordinator) :
  is_reset c = false ->
  fresh_ids self -> persists self (perform c self).
Proof.
  intros Hr Hf.
  destruct c as [name a|name|name descr|tid|steps|];
    cbn [perform is_reset] in *; try discriminate.
  - now apply persists_same_tasks.
  - apply persists_same_tasks.
    unfold unregister_agent, bind, get_agents.
    now destruct (PyDict.contains (agents self) name).
  - now apply persists_create.
  - apply persists_execute.
  - unfold execute_workflow.
    apply (workflow_loop_preserves
             (fun s => fresh_ids s /\ persists self s)).
    + intros n d s [Hs Ha]. split; [now apply fresh_ids_create|].
      eapply persists_trans; [exact Ha|now apply persists_create].
    + intros n d s tid [Hs Ha] _. split.
      * now apply fresh_ids_execute, fresh_ids_create.
      * eapply persists_trans; [exact Ha|].
        eapply persists_trans; [now apply persists_create|].
        apply persists_execute.
    + split; [exact Hf|apply persists_refl].
Qed.

Lemma persists_perform_all (cs : list Call) (self : AgentCoordinator) :
  no_reset cs = true ->
  fresh_ids self -> persists self (perform_all cs self).
Proof.
  revert self. induction cs as [|c cs IH]; intros self Hn Hf.
  - apply persists_refl.
  - cbn [no_reset forallb] in Hn.
    apply andb_true_iff in Hn. destruct Hn as [Hc Hn].
    apply negb_true_iff in Hc.
    apply persists_trans with (b := perform c self).
    + now apply persists_perform.
    + apply (IH (perform c self)); auto. now apply fresh_ids_perform.
Qed.

Lemma execute_task_enter_found tid task self :
  PyDict.get (tasks self) tid = Some task ->
  execute_task_enter tid self
  = (mkCoordinator (agents self)
       (PyDict.set (tasks self) tid (mark_in_progress task))
       (task_counter self) (calls self),
     Return task).
Proof.
  intros H. py_unfold. rewrite H. cbn. now rewrite H.
Qed.

(** C2, as the code has it: as long as the coordinator is not reset, a task
    stays in the table under its identifier, with the same agent name and
    description, and never returns to PENDING; when moreover every handle
    returns or raises an [Exception], its status between two calls never
    moves backward in the order PENDING, IN_PROGRESS, COMPLETED or FAILED.
    On entry [execute_task] marks the task IN_PROGRESS whatever its status,
    so a COMPLETED or FAILED task that is executed again is IN_PROGRESS
    while its handle runs. *)
Theorem status_moves_forward_between_resets
        (history future : list Call) (tid : string) (t : AgentTask) :
  no_reset future = true ->
  PyDict.get (tasks (perform_all history new_coordinator)) tid = Some t ->
  (exists t',
      PyDict.get
        (tasks (perform_all future (perform_all history new_coordinator))) tid
      = Some t'
      /\ same_task t t'
      /\ (status t' = PENDING -> status t = PENDING)
      /\ (Forall polite history -> Forall polite future ->
          rank (status t) <= rank (status t')))
  /\ PyDict.get
       (tasks (fst (execute_task_enter tid
                      (perform_all history new_coordinator)))) tid
     = Some (mkTask (task_id t) (agent_name t) (description t)
                    IN_PROGRESS (result t) (error t)).
Proof.
  intros Hn Ht. split.
  - pose proof (fresh_ids_perform_all history _ fresh_ids_new_coordinator)
      as Hf.
    destruct (persists_perform_all future _ Hn Hf _ _ Ht)
      as (t' & Ht' & Hs & Hp).
    exists t'. repeat split; auto; try apply Hs.
    intros Hh Hfu.
    destruct (advances_perform_all future _ Hn Hfu
                (polite_registry_reachable history Hh) Hf _ _ Ht)
      as (t'' & Ht'' & _ & Hr).
    rewrite Ht' in Ht''. now injection Ht'' as <-.
  - rewrite (execute_task_enter_found _ _ _ Ht). cbn [fst tasks].
    apply PyDictFacts.get_set_same.
Qed.

(** ** Instances and counterexamples *)

Lemma MockAgent_raises_exceptions_only (name : string) :
  raises_exceptions_only (MockAgent name).
Proof.
  intros n descr e. discriminate.
Qed.

Lemma done_history_polite : Forall polite done_history.
Proof.
  repeat constructor. apply MockAgent_raises_exceptions_only.
Qed.

Lemma task_fields_follow_status_witness :
  (COMPLETED = PENDING \/ COMPLETED = COMPLETED \/ COMPLETED = FAILED)
  /\ (COMPLETED = PENDING ->
      PyStr "Agent1 completed: Task 1 for Agent 1" = PyNone
      /\ @None string = None)
  /\ (COMPLETED = FAILED -> @None string <> None)
  /\ (executed_once done_history new_coordinator = true ->
      (PyStr "Agent1 completed: Task 1 for Agent 1" <> PyNone ->
       COMPLETED = COMPLETED)
      /\ (@None string <> None <-> COMPLETED = FAILED)
      /\ ~ (PyStr "Agent1 completed: Task 1 for Agent 1" <> PyNone
            /\ @None string <> None)).
Proof.
  destruct (task_fields_follow_status done_history "task_0001"
              (mkTask "task_0001" "agent1" "Task 1 for Agent 1" COMPLETED
                      (PyStr "Agent1 completed: Task 1 for Agent 1") None)
              eq_refl) as (Hrest & Hpending & Hfailed & Honce).
  split; [exact (Hrest done_history_polite)|].
  split; [exact Hpending|]. split; [exact Hfailed|exact Honce].
Defined.

(** C1, as the specification states it, fails twice.  A task executed again after its
    agent was unregistered is FAILED with its earlier result still set next
    to the error; and a task whose handle returned [None] is COMPLETED with
    no result set. *)
Lemma result_and_error_not_exclusive :
  PyDict.get (tasks (perform_all rerun_history new_coordinator)) "task_0001"
  = Some (mkTask "task_0001" "agent1" "Task 1 for Agent 1" FAILED
                 (PyStr "Agent1 completed: Task 1 for Agent 1")
                 (Some "Task execution failed: 'agent1'"))
  /\ PyDict.get (tasks (perform_all silent_history new_coordinator))
                "task_0001"
     = Some (mkTask "task_0001" "agent1" "Task 1 for Agent 1" COMPLETED
                    PyNone None).
Proof.
  split; reflexivity.
Qed.

Lemma status_moves_forward_between_resets_witness :
  (exists t',
      PyDict.get
        (tasks (perform_all [CallUnregister "agent1";
                             CallExecuteTask "task_0001"]
                  (perform_all done_history new_coordinator))) "task_0001"
      = Some t'
      /\ same_task
           (mkTask "task_0001" "agent1" "Task 1 for Agent 1" COMPLETED
                   (PyStr "Agent1 completed: Task 1 for Agent 1") None) t'
      /\ (status t' = PENDING -> COMPLETED = PENDING)
      /\ rank COMPLETED <= rank (status t'))
  /\ PyDict.get
       (tasks (fst (execute_task_enter "task_0001"
                      (perform_all done_history new_coordinator))))
       "task_0001"
     = Some (mkTask "task_0001" "agent1" "Task 1 for Agent 1" IN_PROGRESS
                    (PyStr "Agent1 completed: Task 1 for Agent 1") None).
Proof.
  destruct (status_moves_forward_between_resets done_history
              [CallUnregister "agent1"; CallExecuteTask "task_0001"]
              "task_0001"
              (mkTask "task_0001" "agent1" "Task 1 for Agent 1" COMPLETED
                      (PyStr "Agent1 completed: Task 1 for Agent 1") None)
              eq_refl eq_refl)
    as [(t' & Hget & Hsame & Hpending & Hrank) Henter].
  split; [|exact Henter].
  exists t'. split; [exact Hget|]. split; [exact Hsame|].
  split; [exact Hpending|].
  apply Hrank; [exact done_history_polite|repeat constructor].
Defined.

(** C2, as the specification states it, fails: a COMPLETED task that is executed
    again is IN_PROGRESS when [execute_task] reaches its [try] block, and
    here it ends FAILED; with a handle that is interrupted instead, it is
    still IN_PROGRESS after the call. *)
Lemma completed_task_back_in_progress :
  PyDict.get (tasks one_done) "task_0001"
  = Some (mkTask "task_0001" "agent1" "Task 1 for Agent 1" COMPLETED
                 (PyStr "Agent1 completed: Task 1 for Agent 1") None)
  /\ PyDict.get (tasks (fst (execute_task_enter "task_0001" one_done)))
                "task_0001"
     = Some (mkTask "task_0001" "agent1" "Task 1 for Agent 1" IN_PROGRESS
                    (PyStr "Agent1 completed: Task 1 for Agent 1") None)
  /\ rank IN_PROGRESS < rank COMPLETED
  /\ option_map status
       (PyDict.get
          (tasks (perform (CallExecuteTask "task_0001")
                    (perform (CallUnregister "agent1") one_done)))
          "task_0001")
     = Some FAILED
  /\ option_map status
       (PyDict.get
          (tasks (perform (CallExecuteTask "task_0001")
                    (perform (CallRegister "agent1" InterruptedAgent)
                             one_done)))
          "task_0001")
     = Some IN_PROGRESS.
Proof.
  repeat split. cbn. lia.
Qed.

Lemma create_task_ids_distinct_between_resets_witness :
  "task_0001" <> "task_0002"
  /\ exists n1 n2,
      "task_0001" = task_id_of n1 /\ "task_0002" = task_id_of n2 /\ n1 < n2.
Proof.
  apply (create_task_ids_distinct_between_resets
           "agent1" "Task 1 for Agent 1" "agent1" "Task 2 for Agent 1"
           [CallExecuteTask "task_0001"]
           only_agent1 one_pending
           (perform (CallCreateTask "agent1" "Task 2 for Agent 1") one_done)
           "task_0001" "task_0002");
    reflexivity.
Defined.

(** C3, as the specification states it, fails: after [reset] the next [create_task]
    returns the identifier that the first one returned. *)
Lemma create_task_id_reused_after_reset :
  snd (create_task "agent1" "Task 1 for Agent 1" only_agent1)
  = Return "task_0001"
  /\ snd (create_task "agent1" "Task 2 for Agent 1"
            (perform CallReset one_pending))
     = Return "task_0001".
Proof.
  split; reflexivity.
Qed.

(** C4, as the specification states it, fails: when the handle of step 2 raises
    [KeyboardInterrupt], which [except Exception] does not catch, the
    workflow raises that [KeyboardInterrupt] and the task of step 2 is left
    IN_PROGRESS, not FAILED. *)
Lemma interrupted_workflow_step_not_failed :
  PyDict.get (agents interrupted_agents) "coding" = Some InterruptedAgent
  /\ execute InterruptedAgent (S (calls interrupted_agents))
             "Implement solution"
     = Raise (BaseError "KeyboardInterrupt" EmptyString)
  /\ snd (execute_workflow three_steps interrupted_agents)
     = Raise (BaseError "KeyboardInterrupt" EmptyString)
  /\ PyDict.get
       (tasks (fst (execute_workflow three_steps interrupted_agents)))
       "task_0001"
     = Some (mkTask "task_0001" "planning" "Analyze problem" COMPLETED
                    (PyStr "Planner completed: Analyze problem") None)
  /\ PyDict.get
       (tasks (fst (execute_workflow three_steps interrupted_agents)))
       "task_0002"
     = Some (mkTask "task_0002" "coding" "Implement solution" IN_PROGRESS
                    PyNone None)
  /\ PyDict.get
       (tasks (fst (execute_workflow three_steps interrupted_agents)))
       "task_0003"
     = None.
Proof.
  repeat split; reflexivity.
Qed.

Lemma execute_workflow_second_step_raises_witness :
  snd (execute_workflow three_steps three_agents)
  = Raise (RuntimeError "Task execution failed: does not compile"
             (Some (OtherError "Exception" "does not compile")))
  /\ PyDict.get (tasks (fst (execute_workflow three_steps three_agents)))
                "task_0001"
     = Some (mkTask "task_0001" "planning" "Analyze problem" COMPLETED
                    (PyStr "Planner completed: Analyze problem") None)
  /\ PyDict.get (tasks (fst (execute_workflow three_steps three_agents)))
                "task_0002"
     = Some (mkTask "task_0002" "coding" "Implement solution" FAILED PyNone
                    (Some "Task execution failed: does not compile"))
  /\ task_counter (fst (execute_workflow three_steps three_agents)) = 2
  /\ calls (fst (execute_workflow three_steps three_agents)) = 2
  /\ (forall tid, tid <> "task_0001" -> tid <> "task_0002" ->
        PyDict.get (tasks (fst (execute_workflow three_steps three_agents)))
                   tid
        = PyDict.get (tasks three_agents) tid)
  /\ snd (get_task_status "task_0001"
            (fst (execute_workflow three_steps three_agents)))
     = Return [ ("task_id", PyStr "task_0001");
                ("agent_name", PyStr "planning");
                ("description", PyStr "Analyze problem");
                ("status", PyStr "completed");
                ("result", PyStr "Planner completed: Analyze problem");
                ("error", PyNone) ].
Proof.
  apply (execute_workflow_second_step_raises
           (step "planning" "Analyze problem")
           (step "coding" "Implement solution")
           (step "testing" "Add tests")
           "planning" "Analyze problem" "coding" "Implement solution"
           (MockAgent "Planner") (FailingAgent "does not compile")
           (PyStr "Planner completed: Analyze problem")
           (OtherError "Exception" "does not compile")
           three_agents);
    reflexivity.
Defined.

(** * Further properties of the coordinator *)

(** ** Well-formed coordinators *)

Lemma next_id_not_stored self :
  table_in_order self ->
  PyDict.contains (tasks self) (task_id_of (task_counter self + 1)) = false.
Proof.
  intros Ho. apply PyDictFacts.contains_get, PyDictFacts.get_None_notin.
  rewrite Ho. intros Hin. apply in_map_iff in Hin.
  destruct Hin as (n & E & Hn). apply in_seq in Hn.
  apply task_id_of_inj in E. lia.
Qed.

Lemma well_formed_create name descr self :
  well_formed self -> well_formed (fst (create_task name descr self)).
Proof.
  intros (Ho & Hk & Hr).
  destruct (create_task_cases name descr self) as [[_ ->]|[_ ->]];
    [repeat split; auto|].
  cbn [fst]. split; [|split].
  - unfold table_in_order. cbn [tasks task_counter].
    rewrite PyDictFacts.keys_set_notin by now apply next_id_not_stored.
    rewrite Ho, Nat.add_1_r, seq_S, map_app. reflexivity.
  - intros tid t. cbn [tasks]. rewrite PyDictFacts.get_set.
    destruct (String.eqb _ tid) eqn:E.
    + apply String.eqb_eq in E. now intros [= <-].
    + apply Hk.
  - exact Hr.
Qed.

Lemma task_id_finished task o : task_id (finished task o) = task_id task.
Proof.
  apply same_task_finished.
Qed.

Lemma well_formed_execute tid self :
  well_formed self -> well_formed (fst (execute_task tid self)).
Proof.
  intros (Ho & Hk & Hr).
  destruct (execute_task_cases tid self) as [[_ ->]|[task [Ht ->]]];
    [repeat split; auto|].
  split; [|split].
  - unfold table_in_order. cbn [tasks task_counter].
    rewrite PyDictFacts.keys_set_in; auto.
    now apply (PyDictFacts.get_contains _ _ task).
  - intros tid' t. cbn [tasks]. rewrite PyDictFacts.get_set.
    destruct (String.eqb tid tid') eqn:E.
    + apply String.eqb_eq in E. subst tid'. intros [= <-].
      rewrite task_id_finished. now apply Hk.
    + apply Hk.
  - exact Hr.
Qed.

Lemma well_formed_perform (c : Call) (self : AgentCoordinator) :
  well_formed self -> well_formed (perform c self).
Proof.
  intros Hw.
  destruct c as [name a|name|name descr|tid|steps|]; cbn [perform].
  - destruct Hw as (Ho & Hk & Hr). repeat split; auto.
    unfold registry_distinct. cbn. now apply PyDictFacts.NoDup_keys_set.
  - destruct Hw as (Ho & Hk & Hr).
    destruct (unregister_agent_cases name self) as [[_ ->]|[_ ->]];
      repeat split; auto.
    unfold registry_distinct. cbn. now apply PyDictFacts.NoDup_keys_del.
  - now apply well_formed_create.
  - now apply well_formed_execute.
  - unfold execute_workflow. apply workflow_loop_preserves; auto.
    + intros; now apply well_formed_create.
    + intros; now apply well_formed_execute, well_formed_create.
  - destruct Hw as (Ho & Hk & Hr). repeat split; auto.
    intros tid t. cbn. discriminate.
Qed.

Lemma well_formed_perform_all (cs : list Call) (self : AgentCoordinator) :
  well_formed self -> well_formed (perform_all cs self).
Proof.
  revert self. induction cs as [|c cs IH]; intros self H; cbn; auto.
  apply IH. now apply well_formed_perform.
Qed.

Lemma well_formed_new_coordinator : well_formed new_coordinator.
Proof.
  repeat split.
  - intros tid t. cbn. discriminate.
  - constructor.
Qed.

Lemma well_formed_reachable (history : list Call) :
  well_formed (perform_all history new_coordinator).
Proof.
  apply well_formed_perform_all, well_formed_new_coordinator.
Qed.

(** ** The registry *)

(** X1: [register_agent] is last-write-wins.  The name maps to the handle
    just given whatever was registered before, every other name keeps its
    handle, a name that was already registered keeps its place in the order
    of the registry and a new one goes last; tasks and counter are not
    touched. *)
Theorem register_agent_last_write_wins (name : string) (a : Agent)
        (self : AgentCoordinator) :
  snd (register_agent name a self) = Return tt
  /\ PyDict.get (agents (fst (register_agent name a self))) name = Some a
  /\ (forall other, other <> name ->
        PyDict.get (agents (fst (register_agent name a self))) other
        = PyDict.get (agents self) other)
  /\ PyDict.keys (agents (fst (register_agent name a self)))
     = (if PyDict.contains (agents self) name
        then PyDict.keys (agents self)
        else PyDict.keys (agents self) ++ [name])
  /\ tasks (fst (register_agent name a self)) = tasks self
  /\ task_counter (fst (register_agent name a self)) = task_counter self.
Proof.
  cbn. repeat split.
  - apply PyDictFacts.get_set_same.
  - intros other Hne. apply PyDictFacts.get_set_other. congruence.
  - destruct (PyDict.contains (agents self) name) eqn:E.
    + now apply PyDictFacts.keys_set_in.
    + now apply PyDictFacts.keys_set_notin.
Qed.

(** X2: in every state a coordinator can reach, [unregister_agent] never
    raises and leaves the name unregistered, so that a following
    [create_task] for it raises the [ValueError] of an unknown agent; the
    other names, the tasks and the counter are as before. *)
Theorem unregister_agent_then_create_task_raises (history : list Call)
        (name descr : string) :
  snd (unregister_agent name (perform_all history new_coordinator))
  = Return tt
  /\ PyDict.contains
       (agents (fst (unregister_agent name
                       (perform_all history new_coordinator)))) name
     = false
  /\ create_task name descr
       (fst (unregister_agent name (perform_all history new_coordinator)))
     = (fst (unregister_agent name (perform_all history new_coordinator)),
        Raise (ValueError ("Agent '" ++ name ++ "' is not registered")))
  /\ (forall other, other <> name ->
        PyDict.get
          (agents (fst (unregister_agent name
                          (perform_all history new_coordinator)))) other
        = PyDict.get (agents (perform_all history new_coordinator)) other)
  /\ tasks (fst (unregister_agent name (perform_all history new_coordinator)))
     = tasks (perform_all history new_coordinator)
  /\ task_counter
       (fst (unregister_agent name (perform_all history new_coordinator)))
     = task_counter (perform_all history new_coordinator).
Proof.
  pose proof (well_formed_reachable history) as (_ & _ & Hr).
  set (self := perform_all history new_coordinator) in *.
  assert (Hc : PyDict.contains (agents (fst (unregister_agent name self))) name
               = false).
  { destruct (unregister_agent_cases name self) as [[E ->]|[E ->]]; auto.
    cbn. apply PyDictFacts.contains_get.
    now apply PyDictFacts.get_del_same. }
  split; [|split; [exact Hc|split; [|split; [|split]]]].
  - destruct (unregister_agent_cases name self) as [[_ ->]|[_ ->]]; auto.
  - now apply create_task_unregistered.
  - intros other Hne.
    destruct (unregister_agent_cases name self) as [[_ ->]|[_ ->]]; auto.
    cbn. apply PyDictFacts.get_del_other. congruence.
  - destruct (unregister_agent_cases name self) as [[_ ->]|[_ ->]]; auto.
  - destruct (unregister_agent_cases name self) as [[_ ->]|[_ ->]]; auto.
Qed.

(** X3: right after [register_agent], [create_task] for that name succeeds
    in any coordinator state: it returns the identifier of the next counter
    value and stores a PENDING task with no result and no error under it. *)
Theorem create_task_after_register_agent (name descr : string) (a : Agent)
        (self : AgentCoordinator) :
  snd (create_task name descr (fst (register_agent name a self)))
  = Return (task_id_of (task_counter self + 1))
  /\ PyDict.get
       (tasks (fst (create_task name descr
                      (fst (register_agent name a self)))))
       (task_id_of (task_counter self + 1))
     = Some (mkTask (task_id_of (task_counter self + 1)) name descr
                    PENDING PyNone None)
  /\ task_counter (fst (create_task name descr
                          (fst (register_agent name a self))))
     = task_counter self + 1.
Proof.
  rewrite create_task_registered.
  - cbn. repeat split. apply PyDictFacts.get_set_same.
  - cbn. apply (PyDictFacts.get_contains _ _ a).
    apply PyDictFacts.get_set_same.
Qed.

(** ** The task table *)

(** X4: in every state a coordinator can reach, the task table holds
    exactly the identifiers of the counter values 1 to [task_counter], in
    the order of allocation and without repetition; no task is ever removed
    on its own, and [total_tasks] of the summary is the counter. *)
Theorem task_table_holds_allocated_ids (history : list Call) :
  PyDict.keys (tasks (perform_all history new_coordinator))
  = map task_id_of
        (seq 1 (task_counter (perform_all history new_coordinator)))
  /\ NoDup (PyDict.keys (tasks (perform_all history new_coordinator)))
  /\ total_tasks (get_workflow_summary (perform_all history new_coordinator))
     = task_counter (perform_all history new_coordinator).
Proof.
  pose proof (well_formed_reachable history) as (Ho & _ & _).
  set (self := perform_all history new_coordinator) in *.
  split; [exact Ho|split].
  - rewrite Ho. apply Injective_map_NoDup; [|apply seq_NoDup].
    intros n m. apply task_id_of_inj.
  - cbn. unfold PyDict.len.
    rewrite <- (length_map fst (tasks self)).
    change (map fst (tasks self)) with (PyDict.keys (tasks self)).
    now rewrite Ho, length_map, length_seq.
Qed.

Lemma allocated_iff_stored (self : AgentCoordinator) (tid : string) :
  table_in_order self ->
  (exists n, 1 <= n <= task_counter self /\ tid = task_id_of n)
  <-> PyDict.get (tasks self) tid <> None.
Proof.
  intros Ho. split.
  - intros (n & Hn & ->) Hg. apply PyDictFacts.get_None_notin in Hg.
    apply Hg. rewrite Ho. apply in_map. apply in_seq. lia.
  - intros Hg.
    assert (Hin : In tid (PyDict.keys (tasks self))).
    { destruct (PyDict.get (tasks self) tid) as [t|] eqn:E; [|congruence].
      now apply (PyDictFacts.get_Some_In _ _ t). }
    rewrite Ho in Hin. apply in_map_iff in Hin.
    destruct Hin as (n & E & Hn). apply in_seq in Hn.
    exists n. split; [lia|congruence].
Qed.

Lemma get_task_status_found tid task self :
  PyDict.get (tasks self) tid = Some task ->
  get_task_status tid self
  = (self,
     Return [ ("task_id", PyStr (task_id task));
              ("agent_name", PyStr (agent_name task));
              ("description", PyStr (description task));
              ("status", PyStr (status_value (status task)));
              ("result", result task);
              ("error", opt_str (error task)) ]).
Proof.
  intros H. unfold get_task_status, bind, get_tasks, ret. now rewrite H.
Qed.

Lemma get_task_status_missing tid self :
  PyDict.get (tasks self) tid = None ->
  get_task_status tid self
  = (self, Raise (ValueError ("Task '" ++ tid ++ "' not found"))).
Proof.
  intros H. unfold get_task_status, bind, get_tasks, raise. now rewrite H.
Qed.

(** X5: in every state a coordinator can reach, a task stored under an
    identifier carries that identifier in its [task_id], the identifier is
    that of a counter value between 1 and [task_counter], and
    [get_task_status] returns the record of that task, under the identifier
    asked for, without changing the coordinator. *)
Theorem stored_task_has_its_key (history : list Call) (tid : string)
        (t : AgentTask) :
  PyDict.get (tasks (perform_all history new_coordinator)) tid = Some t ->
  task_id t = tid
  /\ (exists n,
        1 <= n <= task_counter (perform_all history new_coordinator)
        /\ tid = task_id_of n)
  /\ get_task_status tid (perform_all history new_coordinator)
     = (perform_all history new_coordinator,
        Return [ ("task_id", PyStr tid);
                 ("agent_name", PyStr (agent_name t));
                 ("description", PyStr (description t));
                 ("status", PyStr (status_value (status t)));
                 ("result", result t);
                 ("error", opt_str (error t)) ]).
Proof.
  intros Ht.
  pose proof (well_formed_reachable history) as (Ho & Hk & _).
  split; [now apply Hk|split].
  - apply allocated_iff_stored; auto. congruence.
  - rewrite (get_task_status_found _ _ _ Ht). now rewrite (Hk _ _ Ht).
Qed.

Lemma stored_task_has_its_key_witness :
  task_id (new_task "task_0001" "agent1" "Task 1 for Agent 1") = "task_0001"
  /\ (exists n, 1 <= n <= task_counter one_pending
                /\ "task_0001" = task_id_of n)
  /\ get_task_status "task_0001" one_pending
     = (one_pending,
        Return [ ("task_id", PyStr "task_0001");
                 ("agent_name", PyStr "agent1");
                 ("description", PyStr "Task 1 for Agent 1");
                 ("status", PyStr "pending");
                 ("result", PyNone);
                 ("error", PyNone) ]).
Proof.
  apply (stored_task_has_its_key
           [CallRegister "agent1" (MockAgent "Agent1");
            CallCreateTask "agent1" "Task 1 for Agent 1"]
           "task_0001"
           (new_task "task_0001" "agent1" "Task 1 for Agent 1")).
  reflexivity.
Defined.

(** X6: in every state a coordinator can reach, [get_task_status] and
    [execute_task] raise the [ValueError] of a task that is not found for
    the same identifiers, namely those that are not the identifier of a
    counter value between 1 and [task_counter]; [get_task_status] never
    changes the coordinator, and [execute_task] does not change it when the
    task is not found. *)
Theorem not_found_exactly_for_unallocated_ids (history : list Call)
        (tid : string) :
  (snd (get_task_status tid (perform_all history new_coordinator))
   = Raise (ValueError ("Task '" ++ tid ++ "' not found"))
   <-> ~ exists n,
         1 <= n <= task_counter (perform_all history new_coordinator)
         /\ tid = task_id_of n)
  /\ (execute_task tid (perform_all history new_coordinator)
      = (perform_all history new_coordinator,
         Raise (ValueError ("Task '" ++ tid ++ "' not found")))
      <-> ~ exists n,
            1 <= n <= task_counter (perform_all history new_coordinator)
            /\ tid = task_id_of n)
  /\ fst (get_task_status tid (perform_all history new_coordinator))
     = perform_all history new_coordinator.
Proof.
  pose proof (well_formed_reachable history) as (Ho & _ & _).
  set (self := perform_all history new_coordinator) in *.
  rewrite (allocated_iff_stored self tid Ho).
  destruct (PyDict.get (tasks self) tid) as [t|] eqn:E.
  - rewrite (get_task_status_found _ _ _ E), (execute_task_found _ _ _ E).
    cbn [fst snd]. repeat split; try discriminate.
    + intros H. exfalso. apply H. discriminate.
    + intros H. exfalso.
      destruct (dispatch self t) as [r|e]; cbn in H; [discriminate|].
      destruct (is_exception e) eqn:Ee; [discriminate|].
      injection H as _ ->. discriminate.
    + intros H. exfalso. apply H. discriminate.
  - rewrite (get_task_status_missing _ _ E), (execute_task_missing _ _ E).
    cbn [fst snd]. repeat split; auto.
Qed.

(** X7: when the handle of a task's agent returns [r], [execute_task]
    returns [r]; the task is left COMPLETED with [r] as its result and its
    error field as it was, one more handle invocation is counted, and every
    other entry of the task table, the registry and the counter are as
    before. *)
Theorem execute_task_handle_returns (tid : string) (task : AgentTask)
        (agent : Agent) (r : PyValue) (self : AgentCoordinator) :
  PyDict.get (tasks self) tid = Some task ->
  PyDict.get (agents self) (agent_name task) = Some agent ->
  execute agent (calls self) (description task) = Return r ->
  snd (execute_task tid self) = Return r
  /\ PyDict.get (tasks (fst (execute_task tid self))) tid
     = Some (mkTask (task_id task) (agent_name task) (description task)
                    COMPLETED r (error task))
  /\ (forall tid', tid' <> tid ->
        PyDict.get (tasks (fst (execute_task tid self))) tid'
        = PyDict.get (tasks self) tid')
  /\ PyDict.keys (tasks (fst (execute_task tid self)))
     = PyDict.keys (tasks self)
  /\ agents (fst (execute_task tid self)) = agents self
  /\ task_counter (fst (execute_task tid self)) = task_counter self
  /\ calls (fst (execute_task tid self)) = S (calls self).
Proof.
  intros Ht Ha He.
  rewrite (execute_task_found _ _ _ Ht).
  unfold dispatch, calls_after. rewrite Ha, He.
  cbn [fst snd tasks agents task_counter calls reported finished].
  repeat split.
  - now rewrite PyDictFacts.get_set_same.
  - intros tid' Hne. apply PyDictFacts.get_set_other. congruence.
  - apply PyDictFacts.keys_set_in. now apply (PyDictFacts.get_contains _ _ task).
Qed.

Lemma execute_task_handle_returns_witness :
  snd (execute_task "task_0001" one_pending)
  = Return (PyStr "Agent1 completed: Task 1 for Agent 1")
  /\ PyDict.get (tasks (fst (execute_task "task_0001" one_pending)))
                "task_0001"
     = Some (mkTask "task_0001" "agent1" "Task 1 for Agent 1" COMPLETED
                    (PyStr "Agent1 completed: Task 1 for Agent 1") None)
  /\ (forall tid', tid' <> "task_0001" ->
        PyDict.get (tasks (fst (execute_task "task_0001" one_pending))) tid'
        = PyDict.get (tasks one_pending) tid')
  /\ PyDict.keys (tasks (fst (execute_task "task_0001" one_pending)))
     = ["task_0001"]
  /\ agents (fst (execute_task "task_0001" one_pending)) = agents one_pending
  /\ task_counter (fst (execute_task "task_0001" one_pending)) = 1
  /\ calls (fst (execute_task "task_0001" one_pending)) = 1.
Proof.
  apply (execute_task_handle_returns "task_0001"
           (new_task "task_0001" "agent1" "Task 1 for Agent 1")
           (MockAgent "Agent1")
           (PyStr "Agent1 completed: Task 1 for Agent 1") one_pending);
    reflexivity.
Defined.

(** X8: once a task has left PENDING, it is never again among the tasks
    that [get_pending_tasks] returns, with or without an agent name, as long
    as the coordinator is not reset. *)
Theorem executed_task_never_pending_again (history future : list Call)
        (name : option string) (tid : string) (t : AgentTask) :
  PyDict.get (tasks (perform_all history new_coordinator)) tid = Some t ->
  status t <> PENDING ->
  no_reset future = true ->
  ~ In tid
       (map task_id
            (get_pending_tasks name
               (perform_all future (perform_all history new_coordinator)))).
Proof.
  intros Ht Hs Hn Hin.
  pose proof (well_formed_reachable (history ++ future)) as (Ho & Hk & _).
  unfold perform_all in Ho, Hk. rewrite fold_left_app in Ho, Hk.
  fold (perform_all history new_coordinator) in Ho, Hk.
  fold (perform_all future (perform_all history new_coordinator)) in Ho, Hk.
  set (self := perform_all history new_coordinator) in *.
  set (self' := perform_all future self) in *.
  assert (Hnd : NoDup (PyDict.keys (tasks self'))).
  { rewrite Ho. apply Injective_map_NoDup; [|apply seq_NoDup].
    intros n m. apply task_id_of_inj. }
  apply in_map_iff in Hin. destruct Hin as (t' & Hid & Hin).
  assert (Hp : In t' (filter (has_status PENDING) (PyDict.values (tasks self')))).
  { unfold get_pending_tasks in Hin.
    destruct (truthy name); auto.
    apply filter_In in Hin. tauto. }
  apply filter_In in Hp. destruct Hp as [Hv Hst].
  destruct (PyDictFacts.In_values_get _ _ Hnd Hv) as [k Hg].
  pose proof (Hk _ _ Hg) as Hkey.
  assert (E : k = tid) by congruence.
  rewrite E in Hg. unfold self' in Hg.
  destruct (persists_perform_all future self Hn
              (fresh_ids_perform_all history _ fresh_ids_new_coordinator)
              _ _ Ht) as (t'' & Hg'' & _ & Hr).
  rewrite Hg in Hg''. injection Hg'' as <-.
  unfold has_status in Hst.
  destruct (status t') eqn:E'; try discriminate.
  apply Hs. now apply Hr.
Qed.

Lemma executed_task_never_pending_again_witness :
  ~ In "task_0001"
       (map task_id
            (get_pending_tasks None
               (perform_all [CallCreateTask "agent1" "Task 2 for Agent 1"]
                  (perform_all done_history new_coordinator)))).
Proof.
  apply (executed_task_never_pending_again done_history
           [CallCreateTask "agent1" "Task 2 for Agent 1"] None "task_0001"
           (mkTask "task_0001" "agent1" "Task 1 for Agent 1" COMPLETED
                   (PyStr "Agent1 completed: Task 1 for Agent 1") None)).
  - reflexivity.
  - discriminate.
  - reflexivity.
Defined.

(** ** The summary and the queries *)

Lemma filter_filter_comm {A} (f g : A -> bool) (l : list A) :
  filter f (filter g l) = filter g (filter f l).
Proof.
  induction l as [|x l IH]; cbn; auto.
  destruct (g x) eqn:Eg, (f x) eqn:Ef; cbn; rewrite ?Eg, ?Ef, IH; auto.
Qed.

(** X9: the "pending" count of the summary is the number of tasks that
    [get_pending_tasks] returns without an agent name; with a non-empty
    agent name [get_pending_tasks] returns the pending ones among the
    tasks of [get_agent_tasks], in the same order, and never more tasks
    than without a name. *)
Theorem pending_count_matches_query (self : AgentCoordinator) :
  PyDict.get (status_counts (get_workflow_summary self)) "pending"
  = Some (List.length (get_pending_tasks None self))
  /\ (forall (c : ascii) (s : string),
        get_pending_tasks (Some (String c s)) self
        = filter (has_status PENDING) (get_agent_tasks (String c s) self))
  /\ (forall name,
        List.length (get_pending_tasks name self)
        <= List.length (get_pending_tasks None self)).
Proof.
  split; [|split].
  - cbn. now rewrite count_status_length.
  - intros c s. unfold get_pending_tasks, get_agent_tasks.
    cbn [truthy]. apply filter_filter_comm.
  - intros name. unfold get_pending_tasks. cbn [truthy].
    destruct (truthy name); auto. apply filter_length_le.
Qed.

(** X10: in every state a coordinator can reach, the [registered_agents]
    of the summary list no name twice, and they are exactly the names for
    which [create_task] succeeds; for every other name [create_task] raises
    and changes nothing. *)
Theorem registered_agents_decide_create_task (history : list Call)
        (name descr : string) :
  NoDup (registered_agents
           (get_workflow_summary (perform_all history new_coordinator)))
  /\ (In name (registered_agents
                 (get_workflow_summary (perform_all history new_coordinator)))
      <-> snd (create_task name descr (perform_all history new_coordinator))
          = Return (task_id_of
                      (task_counter (perform_all history new_coordinator)
                       + 1)))
  /\ (~ In name (registered_agents
                   (get_workflow_summary
                      (perform_all history new_coordinator)))
      <-> create_task name descr (perform_all history new_coordinator)
          = (perform_all history new_coordinator,
             Raise (ValueError ("Agent '" ++ name ++ "' is not registered")))).
Proof.
  pose proof (well_formed_reachable history) as (_ & _ & Hr).
  set (self := perform_all history new_coordinator) in *.
  cbn [get_workflow_summary registered_agents].
  split; [exact Hr|].
  rewrite <- PyDictFacts.contains_In.
  destruct (create_task_cases name descr self) as [[E ->]|[E ->]];
    rewrite E; cbn [snd].
  - split; split.
    + discriminate.
    + discriminate.
    + reflexivity.
    + intros _. discriminate.
  - split; split.
    + reflexivity.
    + reflexivity.
    + intros H. exfalso. now apply H.
    + intros H. exfalso.
      assert (Hc : task_counter self + 1 = task_counter self)
        by (injection H; intros; congruence).
      lia.
Qed.

Lemma count_status_set (s : TaskStatus) (d : PyDict.t AgentTask)
      (k : string) (old v : AgentTask) :
  PyDict.get d k = Some old ->
  List.length (filter (has_status s) (PyDict.values (PyDict.set d k v)))
  + (if has_status s old then 1 else 0)
  = List.length (filter (has_status s) (PyDict.values d))
    + (if has_status s v then 1 else 0).
Proof.
  unfold PyDict.values.
  induction d as [|[k0 v0] d IH]; cbn; [discriminate|].
  destruct (String.eqb k0 k) eqn:E; cbn.
  - intros [= ->].
    destruct (has_status s old), (has_status s v); cbn; lia.
  - intros H. specialize (IH H).
    destruct (has_status s v0); cbn; lia.
Qed.

(** X11: in every state a coordinator can reach, a successful
    [create_task] adds one task to the summary, a pending one: [total_tasks]
    and the "pending" count grow by one, the other counts and the registered
    agents stay, and the new task is the last of [get_pending_tasks]. *)
Theorem create_task_summary_effect (history : list Call)
        (name descr : string) :
  PyDict.contains (agents (perform_all history new_coordinator)) name = true ->
  total_tasks (get_workflow_summary
                 (fst (create_task name descr
                         (perform_all history new_coordinator))))
  = S (total_tasks (get_workflow_summary
                      (perform_all history new_coordinator)))
  /\ count_status PENDING
       (fst (create_task name descr (perform_all history new_coordinator)))
     = S (count_status PENDING (perform_all history new_coordinator))
  /\ count_status IN_PROGRESS
       (fst (create_task name descr (perform_all history new_coordinator)))
     = count_status IN_PROGRESS (perform_all history new_coordinator)
  /\ count_status COMPLETED
       (fst (create_task name descr (perform_all history new_coordinator)))
     = count_status COMPLETED (perform_all history new_coordinator)
  /\ count_status FAILED
       (fst (create_task name descr (perform_all history new_coordinator)))
     = count_status FAILED (perform_all history new_coordinator)
  /\ registered_agents
       (get_workflow_summary
          (fst (create_task name descr
                  (perform_all history new_coordinator))))
     = registered_agents
         (get_workflow_summary (perform_all history new_coordinator))
  /\ get_pending_tasks None
       (fst (create_task name descr (perform_all history new_coordinator)))
     = get_pending_tasks None (perform_all history new_coordinator)
       ++ [new_task
             (task_id_of
                (task_counter (perform_all history new_coordinator) + 1))
             name descr].
Proof.
  intros Hc.
  pose proof (well_formed_reachable history) as (Ho & _ & _).
  set (self := perform_all history new_coordinator) in *.
  rewrite (create_task_registered _ _ _ Hc). cbn [fst].
  pose proof (PyDictFacts.values_set_notin (tasks self)
                (task_id_of (task_counter self + 1))
                (new_task (task_id_of (task_counter self + 1)) name descr)
                (next_id_not_stored self Ho)) as Hv.
  rewrite !count_status_length.
  unfold get_pending_tasks. cbn [truthy get_workflow_summary total_tasks
                                  registered_agents tasks agents].
  rewrite Hv, !filter_app. cbn [filter has_status status new_task status_eqb].
  rewrite !app_nil_r, !length_app. cbn [List.length].
  repeat split; try lia.
  unfold PyDict.len.
  rewrite <- (length_map snd (PyDict.set _ _ _)).
  change (map snd (PyDict.set (tasks self)
                     (task_id_of (task_counter self + 1))
                     (new_task (task_id_of (task_counter self + 1))
                               name descr)))
    with (PyDict.values (PyDict.set (tasks self)
                     (task_id_of (task_counter self + 1))
                     (new_task (task_id_of (task_counter self + 1))
                               name descr))).
  rewrite Hv, length_app. unfold PyDict.values. rewrite length_map.
  cbn. lia.
Qed.

Lemma create_task_summary_effect_witness :
  total_tasks (get_workflow_summary
                 (fst (create_task "agent1" "Task 2 for Agent 1" one_done)))
  = S (total_tasks (get_workflow_summary one_done))
  /\ count_status PENDING
       (fst (create_task "agent1" "Task 2 for Agent 1" one_done))
     = S (count_status PENDING one_done)
  /\ count_status IN_PROGRESS
       (fst (create_task "agent1" "Task 2 for Agent 1" one_done))
     = count_status IN_PROGRESS one_done
  /\ count_status COMPLETED
       (fst (create_task "agent1" "Task 2 for Agent 1" one_done))
     = count_status COMPLETED one_done
  /\ count_status FAILED
       (fst (create_task "agent1" "Task 2 for Agent 1" one_done))
     = count_status FAILED one_done
  /\ registered_agents
       (get_workflow_summary
          (fst (create_task "agent1" "Task 2 for Agent 1" one_done)))
     = registered_agents (get_workflow_summary one_done)
  /\ get_pending_tasks None
       (fst (create_task "agent1" "Task 2 for Agent 1" one_done))
     = get_pending_tasks None one_done
       ++ [new_task (task_id_of (task_counter one_done + 1))
                    "agent1" "Task 2 for Agent 1"].
Proof.
  apply (create_task_summary_effect done_history
           "agent1" "Task 2 for Agent 1").
  reflexivity.
Defined.

(** X12: executing a PENDING task takes it out of the "pending" count of
    the summary: the pending count drops by one, the three other counts
    together grow by one and [total_tasks] stays.  When the handle of its
    agent returns or raises an [Exception], the task goes to "completed" or
    "failed": the in-progress count stays and completed and failed together
    grow by one. *)
Theorem execute_task_summary_effect (tid : string) (task : AgentTask)
        (self : AgentCoordinator) :
  PyDict.get (tasks self) tid = Some task ->
  status task = PENDING ->
  count_status PENDING self = S (count_status PENDING (fst (execute_task tid self)))
  /\ count_status IN_PROGRESS (fst (execute_task tid self))
     + count_status COMPLETED (fst (execute_task tid self))
     + count_status FAILED (fst (execute_task tid self))
     = S (count_status IN_PROGRESS self + count_status COMPLETED self
          + count_status FAILED self)
  /\ total_tasks (get_workflow_summary (fst (execute_task tid self)))
     = total_tasks (get_workflow_summary self)
  /\ ((forall agent e,
         PyDict.get (agents self) (agent_name task) = Some agent ->
         execute agent (calls self) (description task) = Raise e ->
         is_exception e = true) ->
      count_status IN_PROGRESS (fst (execute_task tid self))
      = count_status IN_PROGRESS self
      /\ count_status COMPLETED (fst (execute_task tid self))
         + count_status FAILED (fst (execute_task tid self))
         = S (count_status COMPLETED self + count_status FAILED self)).
Proof.
  intros Ht Hs.
  rewrite (execute_task_found _ _ _ Ht). cbn [fst].
  rewrite !count_status_length. cbn [tasks get_workflow_summary total_tasks].
  set (fin := finished task (dispatch self task)).
  pose proof (count_status_set PENDING _ tid task fin Ht) as Hp.
  pose proof (count_status_set IN_PROGRESS _ tid task fin Ht) as Hi.
  pose proof (count_status_set COMPLETED _ tid task fin Ht) as Hc.
  pose proof (count_status_set FAILED _ tid task fin Ht) as Hf.
  pose proof (status_partition (PyDict.values (tasks self))) as P0.
  pose proof (status_partition
                (PyDict.values (PyDict.set (tasks self) tid fin))) as P1.
  unfold has_status at 2 4 in Hp. unfold has_status at 2 4 in Hi.
  unfold has_status at 2 4 in Hc. unfold has_status at 2 4 in Hf.
  rewrite Hs in Hp, Hi, Hc, Hf.
  pose proof (status_finished_not_pending task (dispatch self task)) as Hnp.
  fold fin in Hnp.
  unfold PyDict.len. unfold PyDict.values in *. rewrite !length_map in *.
  assert (Hfin : (forall agent e,
                    PyDict.get (agents self) (agent_name task) = Some agent ->
                    execute agent (calls self) (description task) = Raise e ->
                    is_exception e = true) ->
                 status fin <> IN_PROGRESS).
  { intros Hpol. unfold fin, dispatch.
    destruct (PyDict.get (agents self) (agent_name task)) as [a|] eqn:Ea;
      [|cbn; discriminate].
    destruct (execute a (calls self) (description task)) as [r|e] eqn:Ee;
      cbn; [discriminate|].
    rewrite (Hpol a e eq_refl Ee). cbn. discriminate. }
  cbn [status_eqb] in Hp, Hi, Hc, Hf.
  destruct (status fin) eqn:Ef; [congruence| | |];
    cbn [status_eqb] in Hp, Hi, Hc, Hf;
    (split; [|split; [|split]]); try lia;
    intros Hpol; specialize (Hfin Hpol); try congruence; split; lia.
Qed.

Lemma execute_task_summary_effect_witness :
  count_status PENDING one_pending
  = S (count_status PENDING (fst (execute_task "task_0001" one_pending)))
  /\ count_status IN_PROGRESS (fst (execute_task "task_0001" one_pending))
     + count_status COMPLETED (fst (execute_task "task_0001" one_pending))
     + count_status FAILED (fst (execute_task "task_0001" one_pending))
     = S (count_status IN_PROGRESS one_pending
          + count_status COMPLETED one_pending
          + count_status FAILED one_pending)
  /\ total_tasks
       (get_workflow_summary (fst (execute_task "task_0001" one_pending)))
     = total_tasks (get_workflow_summary one_pending)
  /\ count_status IN_PROGRESS (fst (execute_task "task_0001" one_pending))
     = count_status IN_PROGRESS one_pending
  /\ count_status COMPLETED (fst (execute_task "task_0001" one_pending))
     + count_status FAILED (fst (execute_task "task_0001" one_pending))
     = S (count_status COMPLETED one_pending
          + count_status FAILED one_pending).
Proof.
  destruct (execute_task_summary_effect "task_0001"
              (new_task "task_0001" "agent1" "Task 1 for Agent 1")
              one_pending eq_refl eq_refl)
    as (Hpending & Hothers & Htotal & Hcaught).
  split; [exact Hpending|]. split; [exact Hothers|].
  split; [exact Htotal|].
  apply Hcaught. intros agent e Ha He.
  cbn in Ha. injection Ha as <-. discriminate He.
Defined.

(** ** Workflows, step by step *)

Lemma workflow_loop_results (steps : list (PyDict.t string))
      (results : list PyValue) (self : AgentCoordinator) :
  workflow_loop steps results self
  = match workflow_loop steps [] self with
    | (self', Return rs) => (self', Return (results ++ rs))
    | (self', Raise e) => (self', Raise e)
    end.
Proof.
  revert results self.
  induction steps as [|step rest IH]; intros results self.
  - cbn. unfold ret. now rewrite app_nil_r.
  - cbn [workflow_loop]. unfold getitem_step.
    destruct (PyDict.get step "agent_name") as [name|]; [|reflexivity].
    destruct (PyDict.get step "description") as [descr|]; [|reflexivity].
    unfold bind at 1 2 5 6, ret. unfold bind at 1 3.
    destruct (create_task name descr self) as [self1 [tid|e]]; auto.
    unfold bind.
    destruct (execute_task tid self1) as [self2 [r|e]]; auto.
    rewrite (IH (results ++ [r])), (IH ([] ++ [r])).
    destruct (workflow_loop rest [] self2) as [self3 [rs|e]]; auto.
    now rewrite <- app_assoc.
Qed.

Lemma workflow_loop_app (steps1 steps2 : list (PyDict.t string))
      (results : list PyValue) (self : AgentCoordinator) :
  workflow_loop (steps1 ++ steps2) results self
  = match workflow_loop steps1 results self with
    | (self1, Return results1) => workflow_loop steps2 results1 self1
    | (self1, Raise e) => (self1, Raise e)
    end.
Proof.
  revert results self.
  induction steps1 as [|step rest IH]; intros results self.
  - reflexivity.
  - rewrite <- app_comm_cons. cbn [workflow_loop]. unfold getitem_step.
    destruct (PyDict.get step "agent_name") as [name|]; [|reflexivity].
    destruct (PyDict.get step "description") as [descr|]; [|reflexivity].
    unfold bind at 1 2 5 6, ret. unfold bind at 1 3.
    destruct (create_task name descr self) as [self1 [tid|e]]; auto.
    unfold bind.
    destruct (execute_task tid self1) as [self2 [r|e]]; auto.
Qed.

(** X13: a workflow can be cut anywhere.  Running the steps [steps1 ++
    steps2] is running [steps1] and then, from the coordinator that leaves,
    [steps2]: when both return, the results are those of [steps1] followed
    by those of [steps2]; when [steps1] raises, [steps2] is not started. *)
Theorem execute_workflow_app (steps1 steps2 : list (PyDict.t string))
        (self : AgentCoordinator) :
  execute_workflow (steps1 ++ steps2) self
  = match execute_workflow steps1 self with
    | (self1, Return results1) =>
        match execute_workflow steps2 self1 with
        | (self2, Return results2) => (self2, Return (results1 ++ results2))
        | (self2, Raise e) => (self2, Raise e)
        end
    | (self1, Raise e) => (self1, Raise e)
    end.
Proof.
  unfold execute_workflow. rewrite workflow_loop_app.
  destruct (workflow_loop steps1 [] self) as [self1 [results1|e]]; auto.
  apply workflow_loop_results.
Qed.

Lemma execute_workflow_cons (step : PyDict.t string)
      (rest : list (PyDict.t string)) (name descr : string)
      (self : AgentCoordinator) :
  PyDict.get step "agent_name" = Some name ->
  PyDict.get step "description" = Some descr ->
  execute_workflow (step :: rest) self
  = match create_task name descr self with
    | (self1, Return tid) =>
        match execute_task tid self1 with
        | (self2, Return r) =>
            match execute_workflow rest self2 with
            | (self3, Return rs) => (self3, Return (r :: rs))
            | (self3, Raise e) => (self3, Raise e)
            end
        | (self2, Raise e) => (self2, Raise e)
        end
    | (self1, Raise e) => (self1, Raise e)
    end.
Proof.
  intros Hn Hd. unfold execute_workflow.
  rewrite (workflow_loop_step _ _ _ _ _ _ Hn Hd).
  destruct (create_task name descr self) as [self1 [tid|e]]; auto.
  destruct (execute_task tid self1) as [self2 [r|e]]; auto.
  apply workflow_loop_results.
Qed.

(** X14: a workflow of any length whose steps all hold their two keys, name
    registered agents and meet handles that return, returns the results of
    the handles in the order of the steps.  The counter and the number of
    handle invocations grow by the number of steps, the registry is as
    before, the task of the i-th step is stored COMPLETED with its result
    under the i-th identifier allocated, and no other entry of the task
    table changes. *)
Theorem execute_workflow_all_succeed (plan : list PlannedStep)
        (self : AgentCoordinator) :
  all_return (agents self) (calls self) plan ->
  snd (execute_workflow (map planned_step plan) self)
  = Return (map planned_result plan)
  /\ task_counter (fst (execute_workflow (map planned_step plan) self))
     = task_counter self + List.length plan
  /\ calls (fst (execute_workflow (map planned_step plan) self))
     = calls self + List.length plan
  /\ agents (fst (execute_workflow (map planned_step plan) self))
     = agents self
  /\ (forall i p,
        nth_error plan i = Some p ->
        PyDict.get
          (tasks (fst (execute_workflow (map planned_step plan) self)))
          (task_id_of (task_counter self + S i))
        = Some (mkTask (task_id_of (task_counter self + S i))
                       (planned_name p) (planned_descr p)
                       COMPLETED (planned_result p) None))
  /\ (forall tid,
        (forall i, i < List.length plan ->
                   tid <> task_id_of (task_counter self + S i)) ->
        PyDict.get
          (tasks (fst (execute_workflow (map planned_step plan) self))) tid
        = PyDict.get (tasks self) tid).
Proof.
  revert self.
  induction plan as [|p rest IH]; intros self Hall.
  - cbn. repeat split; try lia. intros [|i] q; discriminate.
  - destruct Hall as (Hn & Hd & (agent & Ha & He) & Hrest).
    cbn [map].
    rewrite (execute_workflow_cons _ _ _ _ _ Hn Hd).
    rewrite (create_task_registered _ _ _ (PyDictFacts.get_contains _ _ _ Ha)).
    set (id1 := task_id_of (task_counter self + 1)).
    erewrite execute_task_found
      by (cbn [tasks]; apply PyDictFacts.get_set_same).
    unfold dispatch, calls_after.
    cbn [agents calls tasks task_counter new_task agent_name description].
    rewrite Ha, He. cbn [reported finished].
    rewrite PyDictFacts.set_set.
    match goal with
    | |- context [execute_workflow _ ?s] => set (self2 := s)
    end.
    specialize (IH self2 Hrest).
    destruct IH as (IHr & IHc & IHk & IHa & IHt & IHf).
    destruct (execute_workflow (map planned_step rest) self2)
      as [self3 [rs|e]]; cbn [fst snd] in *; [|discriminate].
    injection IHr as ->.
    subst self2.
    cbn [fst snd map List.length task_counter calls agents tasks
         mark_completed mark_in_progress new_task task_id agent_name
         description error] in *.
    split; [reflexivity|]. split; [lia|]. split; [lia|].
    split; [exact IHa|]. split.
    + intros [|i] q Hq.
      * injection Hq as <-.
        rewrite IHf.
        -- apply PyDictFacts.get_set_same.
        -- intros i Hi E. apply task_id_of_inj in E. lia.
      * cbn [nth_error] in Hq. specialize (IHt i q Hq).
        replace (task_counter self + 1 + S i)
          with (task_counter self + S (S i)) in IHt by lia.
        exact IHt.
    + intros tid Hne. rewrite IHf.
      * apply PyDictFacts.get_set_other.
        intros E. apply (Hne 0); [lia|]. now rewrite <- E.
      * intros i Hi.
        replace (task_counter self + 1 + S i)
          with (task_counter self + S (S i)) by lia.
        apply Hne. lia.
Qed.

Lemma execute_workflow_all_succeed_witness :
  snd (execute_workflow (map planned_step two_step_plan) two_agents)
  = Return (map planned_result two_step_plan)
  /\ task_counter
       (fst (execute_workflow (map planned_step two_step_plan) two_agents))
     = task_counter two_agents + List.length two_step_plan
  /\ calls (fst (execute_workflow (map planned_step two_step_plan) two_agents))
     = calls two_agents + List.length two_step_plan
  /\ agents
       (fst (execute_workflow (map planned_step two_step_plan) two_agents))
     = agents two_agents
  /\ (forall i p,
        nth_error two_step_plan i = Some p ->
        PyDict.get
          (tasks (fst (execute_workflow (map planned_step two_step_plan)
                         two_agents)))
          (task_id_of (task_counter two_agents + S i))
        = Some (mkTask (task_id_of (task_counter two_agents + S i))
                       (planned_name p) (planned_descr p)
                       COMPLETED (planned_result p) None))
  /\ (forall tid,
        (forall i, i < List.length two_step_plan ->
                   tid <> task_id_of (task_counter two_agents + S i)) ->
        PyDict.get
          (tasks (fst (execute_workflow (map planned_step two_step_plan)
                         two_agents))) tid
        = PyDict.get (tasks two_agents) tid).
Proof.
  apply (execute_workflow_all_succeed two_step_plan two_agents).
  cbn. repeat split.
  - exists (MockAgent "Agent1"). split; reflexivity.
  - exists (MockAgent "Agent2"). split; reflexivity.
Defined.

(** X15: a workflow stops at the first step that names an agent which is
    not registered.  What [execute_workflow] raises is the [ValueError] of
    [create_task] itself, not wrapped in a [RuntimeError]; the coordinator
    is as the earlier steps left it, with no task for that step and none
    for the steps after it. *)
Theorem execute_workflow_unknown_agent
        (before after : list (PyDict.t string)) (s : PyDict.t string)
        (name descr : string) (results : list PyValue)
        (self self1 : AgentCoordinator) :
  execute_workflow before self = (self1, Return results) ->
  PyDict.get s "agent_name" = Some name ->
  PyDict.get s "description" = Some descr ->
  PyDict.contains (agents self) name = false ->
  execute_workflow (before ++ s :: after) self
  = (self1, Raise (ValueError ("Agent '" ++ name ++ "' is not registered"))).
Proof.
  intros Hb Hn Hd Hc.
  rewrite execute_workflow_app, Hb.
  rewrite (execute_workflow_cons _ _ _ _ _ Hn Hd).
  rewrite create_task_unregistered; auto.
  replace self1 with (fst (execute_workflow before self)) by now rewrite Hb.
  unfold execute_workflow. now rewrite agents_workflow_loop.
Qed.

Lemma execute_workflow_unknown_agent_witness :
  execute_workflow
    ([step "agent1" "Task 1 for Agent 1"]
     ++ step "nobody" "Task 2" :: [step "agent1" "Task 3 for Agent 1"])
    only_agent1
  = (one_done, Raise (ValueError "Agent 'nobody' is not registered")).
Proof.
  apply (execute_workflow_unknown_agent
           [step "agent1" "Task 1 for Agent 1"]
           [step "agent1" "Task 3 for Agent 1"]
           (step "nobody" "Task 2") "nobody" "Task 2"
           [PyStr "Agent1 completed: Task 1 for Agent 1"]
           only_agent1 one_done);
    reflexivity.
Defined.

(** X16: a workflow stops at the first step that lacks one of its two
    keys.  [execute_workflow] raises the [KeyError] of the missing key,
    "agent_name" being looked up first; the coordinator is as the earlier
    steps left it, and no task is created for the malformed step. *)
Theorem execute_workflow_malformed_step
        (before after : list (PyDict.t string)) (s : PyDict.t string)
        (results : list PyValue) (self self1 : AgentCoordinator) :
  execute_workflow before self = (self1, Return results) ->
  PyDict.get s "agent_name" = None \/ PyDict.get s "description" = None ->
  execute_workflow (before ++ s :: after) self
  = (self1,
     Raise (KeyError (if PyDict.contains s "agent_name"
                      then "description" else "agent_name"))).
Proof.
  intros Hb Hs.
  rewrite execute_workflow_app, Hb.
  unfold execute_workflow, PyDict.contains.
  cbn [workflow_loop]. unfold getitem_step.
  destruct (PyDict.get s "agent_name") as [name|].
  - destruct Hs as [Hs|Hs]; [discriminate|]. now rewrite Hs.
  - reflexivity.
Qed.

Lemma execute_workflow_malformed_step_witness :
  execute_workflow
    ([step "agent1" "Task 1 for Agent 1"]
     ++ [("agent_name", "agent1")] :: [step "agent1" "Task 3 for Agent 1"])
    only_agent1
  = (one_done, Raise (KeyError "description")).
Proof.
  apply (execute_workflow_malformed_step
           [step "agent1" "Task 1 for Agent 1"]
           [step "agent1" "Task 3 for Agent 1"]
           [("agent_name", "agent1")]
           [PyStr "Agent1 completed: Task 1 for Agent 1"]
           only_agent1 one_done).
  - reflexivity.
  - right. reflexivity.
Defined.

(** X17: a workflow of any length stops at the first step whose handle
    raises, wherever that step is; the tasks of the earlier steps are as
    those steps left them and the steps after it are not started.  When
    what the handle raises is an instance of [Exception],
    [execute_workflow] raises the [RuntimeError] of that step and its task
    is stored FAILED under the next identifier; otherwise
    [execute_workflow] raises what the handle raised and the task is
    stored IN_PROGRESS. *)
Theorem execute_workflow_stops_at_failure
        (before after : list (PyDict.t string)) (s : PyDict.t string)
        (name descr : string) (agent : Agent) (e : PyExn)
        (results : list PyValue) (self self1 : AgentCoordinator) :
  execute_workflow before self = (self1, Return results) ->
  PyDict.get s "agent_name" = Some name ->
  PyDict.get s "description" = Some descr ->
  PyDict.get (agents self) name = Some agent ->
  execute agent (calls self1) descr = Raise e ->
  execute_workflow (before ++ s :: after) self
  = (mkCoordinator (agents self)
       (PyDict.set (tasks self1) (task_id_of (task_counter self1 + 1))
          (if is_exception e
           then mkTask (task_id_of (task_counter self1 + 1)) name descr
                       FAILED PyNone
                       (Some ("Task execution failed: " ++ exn_str e)%string)
           else mkTask (task_id_of (task_counter self1 + 1)) name descr
                       IN_PROGRESS PyNone None))
       (task_counter self1 + 1) (S (calls self1)),
     Raise (if is_exception e
            then RuntimeError ("Task execution failed: " ++ exn_str e)
                              (Some e)
            else e)).
Proof.
  intros Hb Hn Hd Ha He.
  assert (Hag : agents self1 = agents self).
  { replace self1 with (fst (execute_workflow before self)) by now rewrite Hb.
    apply agents_workflow_loop. }
  rewrite <- Hag in Ha.
  rewrite execute_workflow_app, Hb.
  rewrite (execute_workflow_cons _ _ _ _ _ Hn Hd).
  rewrite (create_task_registered _ _ _ (PyDictFacts.get_contains _ _ _ Ha)).
  erewrite execute_task_found
    by (cbn [tasks]; apply PyDictFacts.get_set_same).
  unfold dispatch, calls_after.
  cbn [agents calls tasks task_counter new_task agent_name description].
  rewrite Ha, He. cbn [reported finished].
  rewrite PyDictFacts.set_set, Hag.
  destruct (is_exception e); reflexivity.
Qed.

Lemma execute_workflow_stops_at_failure_witness :
  execute_workflow
    ([step "planning" "Analyze problem"]
     ++ step "coding" "Implement solution" :: [step "testing" "Add tests"])
    three_agents
  = (mkCoordinator (agents three_agents)
       (PyDict.set
          (tasks (fst (execute_workflow [step "planning" "Analyze problem"]
                         three_agents)))
          "task_0002"
          (mkTask "task_0002" "coding" "Implement solution" FAILED PyNone
                  (Some "Task execution failed: does not compile")))
       2 2,
     Raise (RuntimeError "Task execution failed: does not compile"
              (Some (OtherError "Exception" "does not compile")))).
Proof.
  apply (execute_workflow_stops_at_failure
           [step "planning" "Analyze problem"] [step "testing" "Add tests"]
           (step "coding" "Implement solution")
           "coding" "Implement solution" (FailingAgent "does not compile")
           (OtherError "Exception" "does not compile")
           [PyStr "Planner completed: Analyze problem"]
           three_agents
           (fst (execute_workflow [step "planning" "Analyze problem"]
                   three_agents)));
    reflexivity.
Defined.

Lemma workflow_calls_shape (steps : list (PyDict.t string))
      (self : AgentCoordinator) :
  forallb is_task_call (workflow_calls steps self) = true
  /\ List.length (workflow_calls steps self) <= 2 * List.length steps.
Proof.
  revert self. induction steps as [|s rest IH]; intros self.
  - split; [reflexivity|cbn; lia].
  - cbn [workflow_calls List.length].
    destruct (PyDict.get s "agent_name") as [name|]; [|split; cbn; auto; lia].
    destruct (PyDict.get s "description") as [descr|];
      [|split; cbn; auto; lia].
    destruct (create_task name descr self) as [self1 [tid|e]];
      [|split; cbn; auto; lia].
    destruct (execute_task tid self1) as [self2 [r|e]];
      [|split; cbn; auto; lia].
    destruct (IH self2) as [IH1 IH2].
    split; cbn [forallb is_task_call andb List.length]; auto. lia.
Qed.

(** X18: a workflow does nothing to the coordinator but call [create_task]
    and [execute_task]: the coordinator it leaves is the one reached by
    making, one after the other, the calls it makes, which are at most two
    per step and never a reset nor a change of the registry. *)
Theorem execute_workflow_as_calls (steps : list (PyDict.t string))
        (self : AgentCoordinator) :
  fst (execute_workflow steps self)
  = perform_all (workflow_calls steps self) self
  /\ forallb is_task_call (workflow_calls steps self) = true
  /\ no_reset (workflow_calls steps self) = true
  /\ List.length (workflow_calls steps self) <= 2 * List.length steps.
Proof.
  destruct (workflow_loop_as_calls steps [] self) as [H1 H2].
  destruct (workflow_calls_shape steps self) as [H3 H4].
  auto.
Qed.

(** ** Where failures come from *)

Lemma contains_set_mono {V} (d : PyDict.t V) (k k' : string) (v : V) :
  PyDict.contains d k' = true -> PyDict.contains (PyDict.set d k v) k' = true.
Proof.
  unfold PyDict.contains. rewrite PyDictFacts.get_set.
  now destruct (String.eqb k k').
Qed.

Lemma trouble_free_create name descr self :
  trouble_free self -> trouble_free (fst (create_task name descr self)).
Proof.
  intros [Hr Ht].
  destruct (create_task_cases name descr self) as [[_ ->]|[Hc ->]];
    [split; auto|].
  split; [exact Hr|].
  unfold all_tasks. cbn [fst tasks agents].
  apply all_tasks_set; [exact Ht|].
  cbn. split; [exact Hc|discriminate].
Qed.

Lemma trouble_free_dispatch task self :
  (forall name a, PyDict.get (agents self) name = Some a -> reliable a) ->
  PyDict.contains (agents self) (agent_name task) = true ->
  exists r, dispatch self task = Return r.
Proof.
  intros Hr Hc. unfold dispatch, PyDict.contains in *.
  destruct (PyDict.get (agents self) (agent_name task)) as [a|] eqn:E;
    [|discriminate].
  apply (Hr _ _ E).
Qed.

Lemma trouble_free_execute tid self :
  trouble_free self -> trouble_free (fst (execute_task tid self)).
Proof.
  intros [Hr Ht].
  destruct (execute_task_cases tid self) as [[_ ->]|[task [Hg ->]]];
    [split; auto|].
  split; [exact Hr|].
  unfold all_tasks. cbn [tasks agents].
  apply all_tasks_set; [exact Ht|].
  destruct (Ht _ _ Hg) as [Hc _].
  destruct (trouble_free_dispatch task self Hr Hc) as [r ->].
  cbn. split; [exact Hc|discriminate].
Qed.

Lemma trouble_free_perform (c : Call) (self : AgentCoordinator) :
  keeps_reliable c -> trouble_free self -> trouble_free (perform c self).
Proof.
  intros Hk Hf.
  destruct c as [name a|name|name descr|tid|steps|];
    cbn [perform keeps_reliable] in *.
  - destruct Hf as [Hr Ht]. split.
    + intros n b. cbn. rewrite PyDictFacts.get_set.
      destruct (String.eqb name n); [intros [= <-]; exact Hk|apply Hr].
    + intros tid t Hg. cbn in Hg. destruct (Ht _ _ Hg) as [Hc Hs].
      split; [|exact Hs]. cbn. now apply contains_set_mono.
  - contradiction.
  - now apply trouble_free_create.
  - now apply trouble_free_execute.
  - unfold execute_workflow. apply workflow_loop_preserves; auto.
    + intros; now apply trouble_free_create.
    + intros; now apply trouble_free_execute, trouble_free_create.
  - destruct Hf as [Hr Ht]. split; [exact Hr|].
    intros tid t. cbn. discriminate.
Qed.

Lemma trouble_free_perform_all (cs : list Call) (self : AgentCoordinator) :
  Forall keeps_reliable cs ->
  trouble_free self -> trouble_free (perform_all cs self).
Proof.
  revert self. induction cs as [|c cs IH]; intros self Hk Hf; cbn; auto.
  inversion Hk; subst. apply IH; auto. now apply trouble_free_perform.
Qed.

(** X19: failures only come from a handle that raises or from an agent
    that was unregistered.  When every handle ever registered returns on
    every invocation and [unregister_agent] is never called, no task is
    ever FAILED, the "failed" count of the summary is 0, and [execute_task]
    on any stored task returns. *)
Theorem no_failure_without_raise_or_unregister (history : list Call) :
  Forall keeps_reliable history ->
  count_status FAILED (perform_all history new_coordinator) = 0
  /\ (forall tid t,
        PyDict.get (tasks (perform_all history new_coordinator)) tid = Some t ->
        status t <> FAILED
        /\ exists r,
            snd (execute_task tid (perform_all history new_coordinator))
            = Return r).
Proof.
  intros Hk.
  assert (H0 : trouble_free new_coordinator).
  { split; intros ? ?; cbn; discriminate. }
  pose proof (trouble_free_perform_all history _ Hk H0) as [Hr Ht].
  set (self := perform_all history new_coordinator) in *.
  split.
  - rewrite count_status_length.
    assert (Hall : forall t, In t (PyDict.values (tasks self)) ->
                             status t <> FAILED).
    { pose proof (well_formed_reachable history) as (Ho & _ & _).
      fold self in Ho.
      assert (Hnd : NoDup (PyDict.keys (tasks self))).
      { rewrite Ho. apply Injective_map_NoDup; [|apply seq_NoDup].
        intros n m. apply task_id_of_inj. }
      intros t Hin.
      destruct (PyDictFacts.In_values_get _ _ Hnd Hin) as [k Hg].
      apply (Ht _ _ Hg). }
    induction (PyDict.values (tasks self)) as [|t l IH]; auto.
    cbn [filter]. unfold has_status at 1.
    destruct (status t) eqn:E; cbn [status_eqb];
      try (apply IH; intros; apply Hall; now right).
    exfalso. apply (Hall t); [now left|exact E].
  - intros tid t Hg. destruct (Ht _ _ Hg) as [Hc Hs].
    split; [exact Hs|].
    rewrite (execute_task_found _ _ _ Hg).
    destruct (trouble_free_dispatch t self Hr Hc) as [r ->].
    now exists r.
Qed.

Lemma MockAgent_reliable (name : string) : reliable (MockAgent name).
Proof.
  intros n descr. eexists. reflexivity.
Qed.

Lemma no_failure_without_raise_or_unregister_witness :
  count_status FAILED (perform_all done_history new_coordinator) = 0
  /\ (forall tid t,
        PyDict.get (tasks (perform_all done_history new_coordinator)) tid
        = Some t ->
        status t <> FAILED
        /\ exists r,
            snd (execute_task tid (perform_all done_history new_coordinator))
            = Return r).
Proof.
  apply (no_failure_without_raise_or_unregister done_history).
  repeat constructor. apply MockAgent_reliable.
Defined.

(** ** Identifiers, labels and the tasks of one agent *)

Lemma string_length_append (s1 s2 : string) :
  String.length (s1 ++ s2) = String.length s1 + String.length s2.
Proof.
  induction s1 as [|c s1 IH]; cbn; auto.
Qed.

Lemma zeros_length (n : nat) : String.length (zeros n) = n.
Proof.
  induction n as [|n IH]; cbn; auto.
Qed.

(** X20: the identifiers [create_task] builds are distinct for distinct
    counter values, also beyond 9999 where the zero padding stops; each
    starts with "task_" and has at least four characters after it. *)
Theorem task_identifiers_distinct (n m : nat) :
  (task_id_of n = task_id_of m <-> n = m)
  /\ String.substring 0 5 (task_id_of n) = "task_"
  /\ 9 <= String.length (task_id_of n).
Proof.
  split; [|split].
  - split; [apply task_id_of_inj|now intros ->].
  - unfold task_id_of. generalize (format_04d n). intros s.
    cbn. now destruct s.
  - unfold task_id_of, format_04d.
    rewrite !string_length_append, zeros_length.
    change (String.length "task_") with 5. lia.
Qed.

Lemma string_of_uint_length (d : uint) :
  String.length (NilEmpty.string_of_uint d) = nb_digits d.
Proof.
  induction d; cbn; auto.
Qed.

Lemma to_uint_normal (n : nat) : unorm (Nat.to_uint n) = Nat.to_uint n.
Proof.
  rewrite <- (Unsigned.to_of (Nat.to_uint n)). now rewrite Unsigned.of_to.
Qed.

Lemma of_uint_acc_lower (d : uint) (acc : nat) :
  acc * 10 ^ nb_digits d <= Nat.of_uint_acc d acc.
Proof.
  rewrite Unsigned.of_uint_acc_spec.
  replace (Unsigned.usize d) with (nb_digits d)
    by (induction d; cbn; auto).
  lia.
Qed.

(** A numeral without a leading zero has at least the value of its leading
    power of ten. *)
Lemma of_uint_lower (d : uint) :
  nzhead d = d -> d <> Nil -> 10 ^ (nb_digits d - 1) <= Nat.of_uint d.
Proof.
  intros Hh Hn. unfold Nat.of_uint.
  destruct d; try congruence; cbn [nb_digits Nat.of_uint_acc];
    rewrite ?Nat.sub_succ, ?Nat.sub_0_r.
  1: { exfalso. cbn in Hh.
       pose proof (DecimalFacts.nb_digits_nzhead d) as H.
       rewrite Hh in H. cbn in H. lia. }
  all: match goal with
       | |- _ <= Nat.of_uint_acc ?d ?a =>
           pose proof (of_uint_acc_lower d a) as H;
           assert (1 <= a) by (rewrite ?Nat.tail_mul_spec; lia)
       end; nia.
Qed.

Lemma str_of_nat_length (n k : nat) :
  1 <= k -> n < 10 ^ k -> String.length (str_of_nat n) <= k.
Proof.
  intros Hk Hn. unfold str_of_nat. rewrite string_of_uint_length.
  pose proof (to_uint_normal n) as Hu.
  pose proof (Unsigned.of_to n) as Hof.
  set (d := Nat.to_uint n) in *.
  destruct (Nat.le_gt_cases (nb_digits d) k) as [|Hgt]; auto.
  exfalso.
  assert (Hh : nzhead d = d).
  { unfold unorm in Hu. destruct (nzhead d) eqn:E; auto.
    subst d. rewrite <- Hu in Hgt. cbn in Hgt. lia. }
  assert (Hnil : d <> Nil).
  { intros E. rewrite E in Hgt. cbn in Hgt. lia. }
  pose proof (of_uint_lower d Hh Hnil) as Hlow.
  assert (10 ^ k <= 10 ^ (nb_digits d - 1))
    by (apply Nat.pow_le_mono_r; lia).
  lia.
Qed.

(** X21: up to the counter value 9999 every identifier has exactly nine
    characters, "task_" and four digits. *)
Theorem task_identifier_fixed_width (n : nat) :
  n < 10 * 1000 -> String.length (task_id_of n) = 9.
Proof.
  intros Hn.
  assert (Hp : 10 * 1000 = 10 ^ 4) by reflexivity.
  assert (Hlen : String.length (str_of_nat n) <= 4)
    by (apply str_of_nat_length; lia).
  unfold task_id_of, format_04d.
  rewrite !string_length_append, zeros_length.
  change (String.length "task_") with 5. lia.
Qed.

Lemma task_identifier_fixed_width_witness :
  String.length (task_id_of 42) = 9.
Proof.
  apply (task_identifier_fixed_width 42). lia.
Defined.

(** X22: the four status labels are pairwise distinct, so the "status"
    entry of a [get_task_status] record tells the status; and the keys of
    [status_counts] in the summary are these four labels, in the order
    PENDING, IN_PROGRESS, COMPLETED, FAILED. *)
Theorem status_value_injective (a b : TaskStatus) (self : AgentCoordinator) :
  (status_value a = status_value b <-> a = b)
  /\ PyDict.keys (status_counts (get_workflow_summary self))
     = map status_value [PENDING; IN_PROGRESS; COMPLETED; FAILED].
Proof.
  split; [|reflexivity].
  split; [|now intros ->].
  destruct a, b; cbn; intros H; try reflexivity; discriminate.
Qed.

Lemma keyed_values_ids (d : PyDict.t AgentTask) :
  NoDup (PyDict.keys d) ->
  (forall k t, PyDict.get d k = Some t -> task_id t = k) ->
  map task_id (PyDict.values d) = PyDict.keys d.
Proof.
  unfold PyDict.keys, PyDict.values.
  induction d as [|[k0 v0] d IH]; cbn; auto.
  intros Hnd Hk. inversion Hnd as [|x l Hx Hl]; subst.
  f_equal.
  - apply Hk. now rewrite String.eqb_refl.
  - apply IH; auto. intros k t Hg. apply Hk.
    destruct (String.eqb k0 k) eqn:E; auto.
    apply String.eqb_eq in E. subst k0.
    exfalso. apply Hx. now apply (PyDictFacts.get_Some_In d k t).
Qed.

Lemma NoDup_map_filter {A B} (g : A -> B) (f : A -> bool) (l : list A) :
  NoDup (map g l) -> NoDup (map g (filter f l)).
Proof.
  induction l as [|x l IH]; cbn; auto.
  intros Hnd. inversion Hnd as [|y l' Hy Hl]; subst.
  destruct (f x); cbn; auto.
  constructor; auto.
  intros Hin. apply Hy. apply in_map_iff in Hin.
  destruct Hin as (z & Ez & Hz). apply filter_In in Hz.
  apply in_map_iff. exists z. tauto.
Qed.

(** X23: in every state a coordinator can reach, [get_agent_tasks] returns
    exactly the stored tasks of that agent: a task is in the list if and
    only if it is the task stored under its own identifier and carries the
    agent name asked for, and no identifier occurs twice in the list. *)
Theorem get_agent_tasks_exactly_stored (history : list Call) (name : string)
        (t : AgentTask) :
  (In t (get_agent_tasks name (perform_all history new_coordinator))
   <-> PyDict.get (tasks (perform_all history new_coordinator)) (task_id t)
       = Some t
       /\ agent_name t = name)
  /\ NoDup (map task_id
              (get_agent_tasks name (perform_all history new_coordinator))).
Proof.
  pose proof (well_formed_reachable history) as (Ho & Hk & _).
  set (self := perform_all history new_coordinator) in *.
  assert (Hnd : NoDup (PyDict.keys (tasks self))).
  { rewrite Ho. apply Injective_map_NoDup; [|apply seq_NoDup].
    intros n m. apply task_id_of_inj. }
  unfold get_agent_tasks. split.
  - rewrite filter_In, String.eqb_eq. split.
    + intros [Hin Hn]. split; [|exact Hn].
      destruct (PyDictFacts.In_values_get _ _ Hnd Hin) as [k Hg].
      now rewrite (Hk _ _ Hg).
    + intros [Hg Hn]. split; [|exact Hn].
      now apply (PyDictFacts.get_In_values _ (task_id t)).
  - apply NoDup_map_filter.
    now rewrite (keyed_values_ids _ Hnd Hk).
Qed.

(** ** Handles are looked up when a task is executed *)

(** X24: a task runs the handle that is registered under its agent name
    when [execute_task] is called, not the one that was registered when the
    task was created.  After [register_agent] has put the handle [b] under
    the agent name of a stored task, [execute_task] invokes [b]: it returns
    what [b] returns and stores it in the COMPLETED task; or, when [b]
    raises an instance of [Exception], it reports it in a [RuntimeError]
    and stores the message in the FAILED task; or else it raises what [b]
    raised and leaves the task IN_PROGRESS. *)
Theorem execute_task_uses_current_handle (tid : string) (task : AgentTask)
        (b : Agent) (self : AgentCoordinator) :
  PyDict.get (tasks self) tid = Some task ->
  snd (execute_task tid (fst (register_agent (agent_name task) b self)))
  = match execute b (calls self) (description task) with
    | Return r => Return r
    | Raise e =>
        if is_exception e
        then Raise (RuntimeError ("Task execution failed: " ++ exn_str e)
                                 (Some e))
        else Raise e
    end
  /\ PyDict.get
       (tasks (fst (execute_task tid
                      (fst (register_agent (agent_name task) b self))))) tid
     = Some
         match execute b (calls self) (description task) with
         | Return r =>
             mkTask (task_id task) (agent_name task) (description task)
                    COMPLETED r (error task)
         | Raise e =>
             if is_exception e
             then mkTask (task_id task) (agent_name task) (description task)
                         FAILED (result task)
                         (Some ("Task execution failed: "
                                ++ exn_str e)%string)
             else mkTask (task_id task) (agent_name task) (description task)
                         IN_PROGRESS (result task) (error task)
         end
  /\ calls (fst (execute_task tid
                   (fst (register_agent (agent_name task) b self))))
     = S (calls self).
Proof.
  intros Ht.
  erewrite execute_task_found by (cbn; exact Ht).
  unfold dispatch, calls_after, register_agent, bind, get_agents, put_agents.
  cbn [fst snd agents tasks calls task_counter].
  rewrite !PyDictFacts.get_set_same.
  destruct (execute b (calls self) (description task)) as [r|e];
    cbn [reported finished fst snd]; auto.
Qed.

Lemma execute_task_uses_current_handle_witness :
  snd (execute_task "task_0001"
         (fst (register_agent "agent1" (FailingAgent "no credit")
                 one_pending)))
  = Raise (RuntimeError "Task execution failed: no credit"
             (Some (OtherError "Exception" "no credit")))
  /\ PyDict.get
       (tasks (fst (execute_task "task_0001"
                      (fst (register_agent "agent1"
                              (FailingAgent "no credit") one_pending)))))
       "task_0001"
     = Some (mkTask "task_0001" "agent1" "Task 1 for Agent 1" FAILED PyNone
                    (Some "Task execution failed: no credit"))
  /\ calls (fst (execute_task "task_0001"
                   (fst (register_agent "agent1" (FailingAgent "no credit")
                           one_pending))))
     = 1.
Proof.
  apply (execute_task_uses_current_handle "task_0001"
           (new_task "task_0001" "agent1" "Task 1 for Agent 1")
           (FailingAgent "no credit") one_pending).
  reflexivity.
Defined.
